(** * tcex-util: the source-line locator

    A shallow embedding of [find_line_in_code] and [find_line_number], as
    they are written in [util.py] (class [Util]) and in [code_operation.py]
    (class [CodeOperation]), together with the properties of their scan gate
    [magnet_on].

    Python strings are modelled by [string]; a character is a code point
    below 256.  Python integers are modelled by [Z].  The two collaborators
    of the locator, the [re] engine and the [ast]/[astunparse] pair, are
    interfaces ([ReEngine], [PyParser]); the theorems hold for every
    implementation of them. *)

From Stdlib Require Import String Ascii List ZArith Bool Lia.
Import ListNotations.

Local Open Scope string_scope.
Local Open Scope list_scope.
Local Open Scope Z_scope.

(** ** Exceptions and the error monad *)

Inductive exn : Type :=
| SyntaxError        (* raised by ast.parse *)
| ReError            (* re.error, raised when a pattern does not compile *)
| OutsideFragment.   (* raised by the executable instances below on input
                        outside the fragment they implement *)

Inductive result (A : Type) : Type :=
| Return (a : A)
| Raise (e : exn).

Arguments Return {A} a.
Arguments Raise {A} e.

Definition bind {A B : Type} (c : result A) (k : A -> result B) : result B :=
  match c with
  | Return a => k a
  | Raise e => Raise e
  end.

Notation "x <- c ;; k" := (bind c (fun x => k))
  (at level 61, c at next level, right associativity).

(** ** The Python string operations the locator uses *)

Module Py.

(** [str.isspace] on one character, for code points below 256. *)
Definition isspace (c : ascii) : bool :=
  let n := nat_of_ascii c in
  (((9 <=? n) && (n <=? 13)) || ((28 <=? n) && (n <=? 32))
   || (n =? 133) || (n =? 160))%nat.

(** [s.lstrip()] *)
Fixpoint lstrip (s : string) : string :=
  match s with
  | EmptyString => EmptyString
  | String c r => if isspace c then lstrip r else s
  end.

(** [s.rstrip()] *)
Fixpoint rstrip (s : string) : string :=
  match s with
  | EmptyString => EmptyString
  | String c r =>
      match rstrip r with
      | EmptyString => if isspace c then EmptyString else String c EmptyString
      | r' => String c r'
      end
  end.

(** [s.strip()] *)
Definition strip (s : string) : string := rstrip (lstrip s).

(** [s[:n]] *)
Definition slice_to (n : nat) (s : string) : string := substring 0 n s.

(** [x in t] for a tuple [t] of strings *)
Definition str_in (x : string) (t : list string) : bool :=
  existsb (String.eqb x) t.

(** truth value of a string: [bool(s)] *)
Definition truthy (s : string) : bool :=
  match s with
  | EmptyString => false
  | String _ _ => true
  end.

(** [s.split(sep)] for a one-character separator: never the empty list. *)
Fixpoint split (sep : ascii) (s : string) : list string :=
  match s with
  | EmptyString => [EmptyString]
  | String c r =>
      if Ascii.eqb c sep then EmptyString :: split sep r
      else match split sep r with
           | [] => [String c EmptyString]
           | h :: t => String c h :: t
           end
  end.

(** the one-character string holding a double quote *)
Definition dquote : string := String (ascii_of_nat 34) EmptyString.

(** the character ['\n'] *)
Definition nl : ascii := ascii_of_nat 10.

(** [enumerate(l, start)] *)
Fixpoint enumerate {A : Type} (l : list A) (start : Z) : list (Z * A) :=
  match l with
  | [] => []
  | x :: r => (start, x) :: enumerate r (start + 1)
  end.

End Py.

(** ** The collaborators *)

(** The [re] module.  [re.match(pattern, string)] is
    [_compile(pattern, flags).match(string)]: a [str] pattern is compiled (and
    [re.error] raised when it is malformed), a compiled [Pattern] is taken as
    it is.  [regex_match r s] says whether [r.match(s)] is a match object
    (always true as a condition) or [None]; patterns are [str] patterns, so
    that matching one against a line does not raise.  The empty pattern
    compiles and matches at the start of every string. *)
Class ReEngine : Type := {
  regex : Type;
  re_compile : string -> result regex;
  regex_match : regex -> string -> bool;
  re_compile_empty :
    forall s,
      (r <- re_compile EmptyString ;; Return (regex_match r s)) = Return true
}.

(** [ast.parse] and [astunparse.unparse]. *)
Class PyParser : Type := {
  ast : Type;
  ast_parse : string -> result ast;
  unparse : ast -> string
}.

Section Patterns.
Context {E : ReEngine}.

(** A value of type [str | Pattern]. *)
Inductive pattern : Type :=
| Str (s : string)
| Compiled (r : regex).

(** Truth value of a [Pattern | str | None] argument: [None] and the empty
    string are false, every other string and every compiled pattern is
    true (a [Pattern] defines neither [__bool__] nor [__len__]). *)
Definition truthy (p : option pattern) : bool :=
  match p with
  | None => false
  | Some (Str s) => Py.truthy s
  | Some (Compiled _) => true
  end.

(** [re._compile(pattern, 0)] *)
Definition _compile (p : pattern) : result regex :=
  match p with
  | Str s => re_compile s
  | Compiled r => Return r
  end.

(** [re.match(pattern, string)], as a condition *)
Definition re_match (p : pattern) (s : string) : result bool :=
  r <- _compile p ;; Return (regex_match r s).

End Patterns.

Arguments pattern : clear implicits.
Arguments pattern {E}.

(** ** [util.py]: class [Util] *)

Module Util.
Section Locator.
Context {E : ReEngine} {P : PyParser}.

(** The [for] loop of [find_line_in_code], with the value of [magnet_on]
    on entry of the iteration.  [continue] and falling through the body
    are the recursive calls, [return line] is [Return (Some _)], [break]
    is the [Return None] that follows the loop. *)
Fixpoint find_line_in_code_loop (needle : pattern)
    (trigger_start trigger_stop : option pattern)
    (magnet_on : bool) (lines : list string) : result (option string) :=
  match lines with
  | [] => Return None
  | line :: rest =>
      if negb (Py.str_in (Py.slice_to 1 (Py.lstrip line)) ["'"; Py.dquote]) then
        started <- match trigger_start with
                   | Some p => re_match p line
                   | None => Return false
                   end ;;
        if started then
          find_line_in_code_loop needle trigger_start trigger_stop true rest
        else
          found <- (if magnet_on then re_match needle line
                    else Return false) ;;
          if found then Return (Some (Py.strip line))
          else
            stopped <- match trigger_stop with
                       | Some p =>
                           m <- re_match p line ;; Return (m && magnet_on)
                       | None => Return false
                       end ;;
            if stopped then Return None
            else find_line_in_code_loop needle trigger_start trigger_stop
                   magnet_on rest
      else
        find_line_in_code_loop needle trigger_start trigger_stop
          magnet_on rest
  end.

Definition find_line_in_code (needle : pattern) (code : string)
    (trigger_start trigger_stop : option pattern) : result (option string) :=
  let magnet_on := negb (truthy trigger_start) in
  tree <- ast_parse code ;;
  find_line_in_code_loop needle trigger_start trigger_stop magnet_on
    (Py.split Py.nl (unparse tree)).

(** The [for] loop of [find_line_number] over
    [enumerate(contents.split('\n'), start=1)]. *)
Fixpoint find_line_number_loop (needle : pattern)
    (trigger_start trigger_stop : option pattern)
    (magnet_on : bool) (items : list (Z * string)) : result (option Z) :=
  match items with
  | [] => Return None
  | (line_number, line) :: rest =>
      if Py.truthy (Py.strip line) then
        started <- match trigger_start with
                   | Some p => re_match p line
                   | None => Return false
                   end ;;
        if started then
          find_line_number_loop needle trigger_start trigger_stop true rest
        else
          found <- (if magnet_on then re_match needle line
                    else Return false) ;;
          if found then Return (Some line_number)
          else
            stopped <- match trigger_stop with
                       | Some p =>
                           m <- re_match p line ;; Return (m && magnet_on)
                       | None => Return false
                       end ;;
            if stopped then Return None
            else find_line_number_loop needle trigger_start trigger_stop
                   magnet_on rest
      else
        find_line_number_loop needle trigger_start trigger_stop
          magnet_on rest
  end.

Definition find_line_number (needle : pattern) (contents : string)
    (trigger_start trigger_stop : option pattern) : result (option Z) :=
  let magnet_on := negb (truthy trigger_start) in
  find_line_number_loop needle trigger_start trigger_stop magnet_on
    (Py.enumerate (Py.split Py.nl contents) 1).

End Locator.
End Util.

(** ** [code_operation.py]: class [CodeOperation]

    The two methods are written out a second time there, with the same text. *)

Module CodeOperation.
Section Locator.
Context {E : ReEngine} {P : PyParser}.

(** The [for] loop of [find_line_in_code], with the value of [magnet_on]
    on entry of the iteration.  [continue] and falling through the body
    are the recursive calls, [return line] is [Return (Some _)], [break]
    is the [Return None] that follows the loop. *)
Fixpoint find_line_in_code_loop (needle : pattern)
    (trigger_start trigger_stop : option pattern)
    (magnet_on : bool) (lines : list string) : result (option string) :=
  match lines with
  | [] => Return None
  | line :: rest =>
      if negb (Py.str_in (Py.slice_to 1 (Py.lstrip line)) ["'"; Py.dquote]) then
        started <- match trigger_start with
                   | Some p => re_match p line
                   | None => Return false
                   end ;;
        if started then
          find_line_in_code_loop needle trigger_start trigger_stop true rest
        else
          found <- (if magnet_on then re_match needle line
                    else Return false) ;;
          if found then Return (Some (Py.strip line))
          else
            stopped <- match trigger_stop with
                       | Some p =>
                           m <- re_match p line ;; Return (m && magnet_on)
                       | None => Return false
                       end ;;
            if stopped then Return None
            else find_line_in_code_loop needle trigger_start trigger_stop
                   magnet_on rest
      else
        find_line_in_code_loop needle trigger_start trigger_stop
          magnet_on rest
  end.

Definition find_line_in_code (needle : pattern) (code : string)
    (trigger_start trigger_stop : option pattern) : result (option string) :=
  let magnet_on := negb (truthy trigger_start) in
  tree <- ast_parse code ;;
  find_line_in_code_loop needle trigger_start trigger_stop magnet_on
    (Py.split Py.nl (unparse tree)).

(** The [for] loop of [find_line_number] over
    [enumerate(contents.split('\n'), start=1)]. *)
Fixpoint find_line_number_loop (needle : pattern)
    (trigger_start trigger_stop : option pattern)
    (magnet_on : bool) (items : list (Z * string)) : result (option Z) :=
  match items with
  | [] => Return None
  | (line_number, line) :: rest =>
      if Py.truthy (Py.strip line) then
        started <- match trigger_start with
                   | Some p => re_match p line
                   | None => Return false
                   end ;;
        if started then
          find_line_number_loop needle trigger_start trigger_stop true rest
        else
          found <- (if magnet_on then re_match needle line
                    else Return false) ;;
          if found then Return (Some line_number)
          else
            stopped <- match trigger_stop with
                       | Some p =>
                           m <- re_match p line ;; Return (m && magnet_on)
                       | None => Return false
                       end ;;
            if stopped then Return None
            else find_line_number_loop needle trigger_start trigger_stop
                   magnet_on rest
      else
        find_line_number_loop needle trigger_start trigger_stop
          magnet_on rest
  end.

Definition find_line_number (needle : pattern) (contents : string)
    (trigger_start trigger_stop : option pattern) : result (option Z) :=
  let magnet_on := negb (truthy trigger_start) in
  find_line_number_loop needle trigger_start trigger_stop magnet_on
    (Py.enumerate (Py.split Py.nl contents) 1).

End Locator.
End CodeOperation.

(** ** The scan gate as a state machine

    One iteration of either loop, read off the loop bodies above: the guard
    that decides whether the line is looked at, then the three tests in the
    order of the source.  [Next m] is the end of the iteration (by [continue]
    or by falling through) with [magnet_on = m], [Found] is [return],
    [Stop] is [break]. *)

Inductive outcome : Type :=
| Next (magnet_on : bool)
| Found
| Stop.

(** the guard of [find_line_number]: [if line.strip():] *)
Definition nonblank (line : string) : bool := Py.truthy (Py.strip line).

(** the guard of [find_line_in_code]: [line.lstrip()[:1]] is not in the
    tuple of the single-quote and the double-quote strings *)
Definition unquoted (line : string) : bool :=
  negb (Py.str_in (Py.slice_to 1 (Py.lstrip line)) ["'"; Py.dquote]).

(** the condition [trigger is not None and re.match(trigger, line)] *)
Definition supplied_and_matches {E : ReEngine} (trigger : option pattern)
    (line : string) : result bool :=
  match trigger with
  | Some p => re_match p line
  | None => Return false
  end.

Module Gate.
Section Gate.
Context {E : ReEngine}.
Variable needle : pattern.
Variables trigger_start trigger_stop : option pattern.

(** [magnet_on = not trigger_start] *)
Definition initial_gate : bool := negb (truthy trigger_start).

(** the three [if] statements of the loop body *)
Definition tests (magnet_on : bool) (line : string) : result outcome :=
  started <- supplied_and_matches trigger_start line ;;
  if started then Return (Next true)
  else
    found <- (if magnet_on then re_match needle line else Return false) ;;
    if found then Return Found
    else
      stopped <- match trigger_stop with
                 | Some p => m <- re_match p line ;; Return (m && magnet_on)
                 | None => Return false
                 end ;;
      if stopped then Return Stop else Return (Next magnet_on).

Variable guard : string -> bool.

Definition step (magnet_on : bool) (line : string) : result outcome :=
  if guard line then tests magnet_on line else Return (Next magnet_on).

(** The value of [magnet_on] after the loop has gone through all of
    [lines] without returning, breaking or raising; [None] when it did not
    get that far. *)
Fixpoint gate_after (magnet_on : bool) (lines : list string) : option bool :=
  match lines with
  | [] => Some magnet_on
  | line :: rest =>
      match step magnet_on line with
      | Return (Next m) => gate_after m rest
      | _ => None
      end
  end.

(** The loop as iterated steps, from line number [n]; [found n line] is
    the value returned at a line where the needle is found. *)
Fixpoint scan {A : Type} (found : Z -> string -> A) (magnet_on : bool)
    (n : Z) (lines : list string) : result (option A) :=
  match lines with
  | [] => Return None
  | line :: rest =>
      o <- step magnet_on line ;;
      match o with
      | Next m => scan found m (n + 1) rest
      | Found => Return (Some (found n line))
      | Stop => Return None
      end
  end.

(** The successive values of [magnet_on]: on entry of each iteration that
    is executed, and after the last of them if it ends the loop normally. *)
Fixpoint gate_trace (magnet_on : bool) (lines : list string) : list bool :=
  magnet_on ::
  match lines with
  | [] => []
  | line :: rest =>
      match step magnet_on line with
      | Return (Next m) => gate_trace m rest
      | _ => []
      end
  end.

End Gate.
End Gate.
Export Gate.

(** [text.split('\n')] *)
Definition lines_of (text : string) : list string := Py.split Py.nl text.

(** A pattern argument that compiles: a compiled [Pattern], or a string the
    engine accepts. *)
Definition well_formed {E : ReEngine} (p : pattern) : Prop :=
  exists r, _compile p = Return r.

Definition well_formed_opt {E : ReEngine} (p : option pattern) : Prop :=
  match p with
  | Some q => well_formed q
  | None => True
  end.

(** ** An executable [re] engine for a fragment of the pattern syntax

    Patterns built from literal characters, [.], a backslash before a
    character that is not an ASCII letter or digit, the groups [( )], the
    alternation [|] and the greedy repetitions [*], [+] and [?].  On these
    [compile] raises [ReError] where [re.compile] raises [re.error] (nothing
    to repeat, multiple repeat, unbalanced or missing parenthesis, a
    backslash that ends the pattern); whatever else the syntax of [re] has
    is answered by [OutsideFragment].  [match_prefix r s] decides, by
    derivatives, whether some prefix of [s] is in the language of [r], which
    is when [re.match] finds a match. *)

Module MiniRe.

Inductive re : Type :=
| Void
| Eps
| Chr (c : ascii)
| Dot
| Cat (a b : re)
| Alt (a b : re)
| Star (a : re).

Fixpoint nullable (r : re) : bool :=
  match r with
  | Void | Chr _ | Dot => false
  | Eps | Star _ => true
  | Cat a b => nullable a && nullable b
  | Alt a b => nullable a || nullable b
  end.

Fixpoint deriv (c : ascii) (r : re) : re :=
  match r with
  | Void | Eps => Void
  | Chr d => if Ascii.eqb c d then Eps else Void
  | Dot => if Ascii.eqb c Py.nl then Void else Eps
  | Cat a b =>
      if nullable a then Alt (Cat (deriv c a) b) (deriv c b)
      else Cat (deriv c a) b
  | Alt a b => Alt (deriv c a) (deriv c b)
  | Star a => Cat (deriv c a) (Star a)
  end.

Fixpoint matches_from (s : string) (r : re) : bool :=
  match s with
  | EmptyString => false
  | String c s' => let d := deriv c r in nullable d || matches_from s' d
  end.

Definition match_prefix (r : re) (s : string) : bool :=
  nullable r || matches_from s r.

(** What precedes the character being read. *)
Inductive position : Type :=
| AtStart        (* start of the pattern or of an alternative *)
| AtOpen         (* just after an opening parenthesis *)
| AfterAtom
| AfterRepeat.

(** An open group: the finished alternatives and the items of the current
    one, both latest first. *)
Record frame : Type := { alts : list re; items : list re }.

Record state : Type := {
  stack : list frame;
  cur : frame;
  pos : position;
  escaped : bool
}.

Definition sequence (l : list re) : re :=
  fold_left (fun acc r => Cat r acc) l Eps.

Definition close (f : frame) : re :=
  fold_left (fun acc r => Alt r acc) (alts f) (sequence (items f)).

Definition push_atom (r : re) (st : state) : state :=
  {| stack := stack st;
     cur := {| alts := alts (cur st); items := r :: items (cur st) |};
     pos := AfterAtom;
     escaped := false |}.

Definition repeat (q : re -> re) (st : state) : result state :=
  match items (cur st) with
  | r :: l =>
      Return {| stack := stack st;
                cur := {| alts := alts (cur st); items := q r :: l |};
                pos := AfterRepeat;
                escaped := false |}
  | [] => Raise ReError
  end.

Definition backslash : ascii := ascii_of_nat 92.

Definition is_alnum (c : ascii) : bool :=
  let n := nat_of_ascii c in
  (((48 <=? n) && (n <=? 57)) || ((65 <=? n) && (n <=? 90))
   || ((97 <=? n) && (n <=? 122)))%nat.

Definition is_repeat (c : ascii) : bool :=
  Ascii.eqb c "*" || Ascii.eqb c "+" || Ascii.eqb c "?".

Definition quantifier (c : ascii) (r : re) : re :=
  if Ascii.eqb c "*" then Star r
  else if Ascii.eqb c "+" then Cat r (Star r)
  else Alt r Eps.

Definition read (c : ascii) (st : state) : result state :=
  if escaped st then
    if is_alnum c then Raise OutsideFragment
    else Return (push_atom (Chr c) st)
  else if Ascii.eqb c backslash then
    Return {| stack := stack st; cur := cur st; pos := pos st;
              escaped := true |}
  else if is_repeat c then
    match pos st with
    | AfterAtom => repeat (quantifier c) st
    | AfterRepeat =>
        if Ascii.eqb c "*" then Raise ReError else Raise OutsideFragment
    | AtOpen =>
        if Ascii.eqb c "?" then Raise OutsideFragment else Raise ReError
    | AtStart => Raise ReError
    end
  else if Ascii.eqb c "(" then
    Return {| stack := cur st :: stack st;
              cur := {| alts := []; items := [] |};
              pos := AtOpen;
              escaped := false |}
  else if Ascii.eqb c ")" then
    match stack st with
    | f :: l =>
        Return (push_atom (close (cur st))
                  {| stack := l; cur := f; pos := AfterAtom;
                     escaped := false |})
    | [] => Raise ReError
    end
  else if Ascii.eqb c "|" then
    Return {| stack := stack st;
              cur := {| alts := sequence (items (cur st)) :: alts (cur st);
                        items := [] |};
              pos := AtStart;
              escaped := false |}
  else if Ascii.eqb c "." then Return (push_atom Dot st)
  else if Ascii.eqb c "^" || Ascii.eqb c "$" || Ascii.eqb c "["
          || Ascii.eqb c "{" then Raise OutsideFragment
  else Return (push_atom (Chr c) st).

Definition finish (st : state) : result re :=
  if escaped st then Raise ReError
  else match stack st with
       | [] => Return (close (cur st))
       | _ :: _ => Raise ReError
       end.

Fixpoint parse_from (s : string) (st : state) : result re :=
  match s with
  | EmptyString => finish st
  | String c s' => st' <- read c st ;; parse_from s' st'
  end.

Definition compile (s : string) : result re :=
  parse_from s {| stack := []; cur := {| alts := []; items := [] |};
                  pos := AtStart; escaped := false |}.

#[export] Instance engine : ReEngine := {|
  regex := re;
  re_compile := compile;
  regex_match := match_prefix;
  re_compile_empty := fun _ => eq_refl
|}.

End MiniRe.

(** ** An executable parser and unparser for a fragment of Python

    Modules whose lines are each empty, the statement [pass], an expression
    statement made of one name, or an expression statement made of one
    single-quoted string of printable ASCII characters without quote or
    backslash.  A string that is not closed on its line is the
    [SyntaxError] of [ast.parse]; any other line is answered by
    [OutsideFragment].  [unparser] writes what [astunparse.unparse] writes for
    such a module: a newline before every statement, a string constant as
    its [repr], and a final newline. *)

Module MicroPy.

Inductive stmt : Type :=
| Pass
| ExprName (id : string)
| ExprStr (value : string).

Definition keywords : list string :=
  ["False"; "None"; "True"; "and"; "as"; "assert"; "async"; "await";
   "break"; "class"; "continue"; "def"; "del"; "elif"; "else"; "except";
   "finally"; "for"; "from"; "global"; "if"; "import"; "in"; "is";
   "lambda"; "nonlocal"; "not"; "or"; "pass"; "raise"; "return"; "try";
   "while"; "with"; "yield"].

Definition is_digit (c : ascii) : bool :=
  let n := nat_of_ascii c in ((48 <=? n) && (n <=? 57))%nat.

Definition is_name_start (c : ascii) : bool :=
  let n := nat_of_ascii c in
  (((65 <=? n) && (n <=? 90)) || ((97 <=? n) && (n <=? 122))
   || (n =? 95))%nat.

Fixpoint all_chars (f : ascii -> bool) (s : string) : bool :=
  match s with
  | EmptyString => true
  | String c r => f c && all_chars f r
  end.

Definition is_name (s : string) : bool :=
  match s with
  | EmptyString => false
  | String c r =>
      is_name_start c
      && all_chars (fun d => is_name_start d || is_digit d) r
      && negb (Py.str_in s keywords)
  end.

Definition is_plain (c : ascii) : bool :=
  let n := nat_of_ascii c in
  ((32 <=? n) && (n <=? 126) && negb (n =? 39) && negb (n =? 92))%nat.

(** the text after the opening quote of a string literal *)
Fixpoint string_body (s : string) : result string :=
  match s with
  | EmptyString => Raise SyntaxError
  | String c r =>
      if Ascii.eqb c "'" then
        match r with
        | EmptyString => Return EmptyString
        | String _ _ => Raise OutsideFragment
        end
      else if is_plain c then
        v <- string_body r ;; Return (String c v)
      else Raise OutsideFragment
  end.

Definition parse_line (line : string) : result (option stmt) :=
  match line with
  | EmptyString => Return None
  | String c r =>
      if Ascii.eqb c "'" then
        v <- string_body r ;; Return (Some (ExprStr v))
      else if String.eqb line "pass" then Return (Some Pass)
      else if is_name line then Return (Some (ExprName line))
      else Raise OutsideFragment
  end.

Fixpoint parse_lines (lines : list string) : result (list stmt) :=
  match lines with
  | [] => Return []
  | line :: rest =>
      s <- parse_line line ;;
      body <- parse_lines rest ;;
      Return (match s with Some st => st :: body | None => body end)
  end.

Definition parse (code : string) : result (list stmt) :=
  parse_lines (Py.split Py.nl code).

Definition LF : string := String Py.nl EmptyString.

Definition write (st : stmt) : string :=
  match st with
  | Pass => "pass"
  | ExprName id => id
  | ExprStr v => ("'" ++ v ++ "'")%string
  end.

Definition unparser (body : list stmt) : string :=
  fold_right (fun st out => (LF ++ write st ++ out)%string) LF body.

#[export] Instance parser : PyParser := {|
  ast := list stmt;
  ast_parse := parse;
  unparse := unparser
|}.

End MicroPy.

(** the one-character string holding a line feed, to write example texts *)
Definition LF : string := String Py.nl EmptyString.

(** * The other static methods of [Util] *)

(** ** More of Python's strings *)

Module PyStr.

(** [len(s)] *)
Definition len (s : string) : Z := Z.of_nat (String.length s).

(** The position a slice bound [i] stands for in [s]: a negative bound
    counts from the end, and every bound is clipped to [0 .. len(s)]. *)
Definition bound (i : Z) (s : string) : nat :=
  Z.to_nat (if i <? 0 then Z.max (len s + i) 0 else Z.min i (len s)).

(** the first [n] characters of [s], all of [s] if it has fewer *)
Fixpoint take (n : nat) (s : string) : string :=
  match n, s with
  | S k, String c r => String c (take k r)
  | _, _ => EmptyString
  end.

(** [s] without its first [n] characters *)
Fixpoint drop (n : nat) (s : string) : string :=
  match n, s with
  | S k, String _ r => drop k r
  | _, _ => s
  end.

(** [s[:i]] *)
Definition slice_upto (i : Z) (s : string) : string := take (bound i s) s.

(** [s[i:]] *)
Definition slice_from (i : Z) (s : string) : string := drop (bound i s) s.

Fixpoint times (s : string) (n : nat) : string :=
  match n with
  | O => EmptyString
  | S k => (s ++ times s k)%string
  end.

(** [s * n]: the empty string when [n] is not positive *)
Definition mul (s : string) (n : Z) : string := times s (Z.to_nat n).

(** a character of the class [0-9] *)
Definition is_digit (c : ascii) : bool :=
  let n := nat_of_ascii c in ((48 <=? n) && (n <=? 57))%nat.

(** every character of [s] is a digit *)
Fixpoint all_digits (s : string) : bool :=
  match s with
  | EmptyString => true
  | String c r => is_digit c && all_digits r
  end.

(** no character of [s] is a digit *)
Fixpoint no_digits (s : string) : bool :=
  match s with
  | EmptyString => true
  | String c r => negb (is_digit c) && no_digits r
  end.

(** [re.findall('[0-9]+', s)]: the maximal runs of ASCII digits of [s], from
    left to right. *)
Fixpoint findall_digits (s : string) : list string :=
  match s with
  | EmptyString => []
  | String c r =>
      if is_digit c then
        match r with
        | String d _ =>
            if is_digit d then
              match findall_digits r with
              | run :: runs => String c run :: runs
              | [] => [String c EmptyString]
              end
            else String c EmptyString :: findall_digits r
        | EmptyString => [String c EmptyString]
        end
      else findall_digits r
  end.

End PyStr.

(** ** [flatten_list] *)

(** A value of a Python list: a list, or anything else. *)
#[local] Unset Elimination Schemes.
Inductive value (A : Type) : Type :=
| Item (a : A)
| PyList (items : list (value A)).
#[local] Set Elimination Schemes.

Arguments Item {A} a.
Arguments PyList {A} items.

(** What one iteration of the loop of [flatten_list] appends to
    [flat_list]: the items of [flatten_list(sublist)] when [sublist] is a
    list, [sublist] itself otherwise. *)
Fixpoint flattened {A : Type} (sublist : value A) : list (value A) :=
  match sublist with
  | Item _ => [sublist]
  | PyList lst => flat_map flattened lst
  end.

Definition flatten_list {A : Type} (lst : list (value A)) : list (value A) :=
  flat_map flattened lst.

(** [isinstance(v, list)] *)
Definition is_list {A : Type} (v : value A) : bool :=
  match v with
  | Item _ => false
  | PyList _ => true
  end.

(** ** [remove_none] *)

(** A [dict]: the items in insertion order, one for a key; the value [None]
    of Python is [None]. *)
Section Dict.
Variables K V : Type.
Variable eqb : K -> K -> bool.

Definition dict : Type := list (K * option V).

(** [d[k] = v]: the value of an existing key is replaced where it stands, a
    new key is added at the end. *)
Fixpoint dict_set (d : dict) (k : K) (v : option V) : dict :=
  match d with
  | [] => [(k, v)]
  | (k', v') :: r =>
      if eqb k' k then (k', v) :: r else (k', v') :: dict_set r k v
  end.

(** [d.get(k)], with [None] for a missing key and [Some None] for a key
    whose value is [None] *)
Fixpoint dict_get (d : dict) (k : K) : option (option V) :=
  match d with
  | [] => None
  | (k', v') :: r => if eqb k' k then Some v' else dict_get r k
  end.

(** [v is not None], for an item [(k, v)] *)
Definition is_not_None (kv : K * option V) : bool :=
  match snd kv with
  | Some _ => true
  | None => false
  end.

(** [{k: v for k, v in dict_.items() if v is not None}] *)
Definition remove_none (dict_ : dict) : dict :=
  fold_left
    (fun acc kv =>
       match snd kv with
       | Some _ => dict_set acc (fst kv) (snd kv)
       | None => acc
       end)
    dict_ [].

End Dict.

Arguments dict_set {K V} eqb d k v.
Arguments dict_get {K V} eqb d k.
Arguments remove_none {K V} eqb dict_.
Arguments is_not_None {K V} kv.

(** ** [printable_cred] *)

(** [cred] is a [str] (left) or any other object (right). *)
Definition printable_cred {O : Type} (cred : string + O) (visible : Z)
    (mask_char : string) (mask_char_count : Z) : string + O :=
  let visible := Z.max visible 1 in
  match cred with
  | inl s =>
      let mask_char := if Py.truthy mask_char then mask_char else "*" in
      if PyStr.len s >=? visible * 2 then
        inl (PyStr.slice_upto visible s
             ++ PyStr.mul mask_char mask_char_count
             ++ PyStr.slice_from (- visible) s)%string
      else inl s
  | inr o => inr o
  end.

(** the call with the default arguments [visible=1], [mask_char='*'],
    [mask_char_count=4] *)
Definition printable_cred_default {O : Type} (cred : string + O)
  : string + O :=
  printable_cred cred 1 "*" 4.

(** ** [standardize_asn] *)

Definition standardize_asn (asn : string) : string :=
  let numbers := PyStr.findall_digits asn in
  match numbers with
  | [number] => ("ASN" ++ number)%string
  | _ => asn
  end.

(** ** [is_ip] and [is_cidr] *)

(** What a call can raise, as far as the [except] clauses tell apart:
    [ValueError], another [Exception], or a [BaseException] that is no
    [Exception]. *)
Inductive raised : Type :=
| ValueError
| OtherException
| NotAnException.

Inductive attempt (A : Type) : Type :=
| Done (a : A)
| Raised (x : raised).

Arguments Done {A} a.
Arguments Raised {A} x.

(** [except Exception] catches it *)
Definition is_exception (x : raised) : bool :=
  match x with
  | ValueError | OtherException => true
  | NotAnException => false
  end.

(** [ipaddress.ip_address] and [ipaddress.ip_interface] *)
Class IpAddress : Type := {
  address : Type;
  interface : Type;
  ip_address : string -> attempt address;
  ip_interface : string -> attempt interface
}.

Definition is_cidr {L : IpAddress} (possible_cidr_range : string)
  : attempt bool :=
  match ip_address possible_cidr_range with
  | Raised ValueError =>
      match ip_interface possible_cidr_range with
      | Raised x => if is_exception x then Done false else Raised x
      | Done _ => Done true
      end
  | Raised x => Raised x
  | Done _ => Done false
  end.

Definition is_ip {L : IpAddress} (possible_ip : string) : attempt bool :=
  match ip_address possible_ip with
  | Raised ValueError => Done false
  | Raised x => Raised x
  | Done _ => Done true
  end.

(** An executable [ipaddress] for the strings without a colon, which no
    IPv6 class accepts: dotted quads of decimal octets without leading
    zeros (which [ipaddress] refuses since Python 3.9.5), and for an
    interface an optional [/n] with [n] a decimal prefix length up to 32.
    A mask that is not made of digits (a dotted netmask or hostmask) and a
    string with a colon are outside what this instance describes: it
    answers them by [Raised NotAnException], which no [except] clause of
    the two methods catches. *)
Module IPv4.

Definition all_digits : string -> bool := PyStr.all_digits.

Fixpoint has_colon (s : string) : bool :=
  match s with
  | EmptyString => false
  | String c r => Ascii.eqb c ":" || has_colon r
  end.

(** [int(s, 10)] for a string of digits *)
Definition to_int (s : string) : Z :=
  fold_left (fun acc c => 10 * acc + Z.of_nat (nat_of_ascii c - 48))
    (list_ascii_of_string s) 0.

(** [_parse_octet] *)
Definition octet (s : string) : option Z :=
  match s with
  | EmptyString => None
  | String c r =>
      if negb (all_digits s) then None
      else if (3 <? String.length s)%nat then None
      else if Ascii.eqb c "0" && Py.truthy r then None
      else if 255 <? to_int s then None
      else Some (to_int s)
  end.

Fixpoint octets (l : list string) : option (list Z) :=
  match l with
  | [] => Some []
  | s :: r =>
      match octet s, octets r with
      | Some o, Some os => Some (o :: os)
      | _, _ => None
      end
  end.

(** [IPv4Address(s)] *)
Definition parse_address (s : string) : option (list Z) :=
  let parts := Py.split "." s in
  if (List.length parts =? 4)%nat then octets parts else None.

(** the prefix length of a mask written in digits *)
Definition prefix (s : string) : option Z :=
  if Py.truthy s && all_digits s then
    if to_int s <=? 32 then Some (to_int s) else None
  else None.

Definition lib_address (s : string) : attempt (list Z) :=
  if has_colon s then Raised NotAnException
  else match parse_address s with
       | Some a => Done a
       | None => Raised ValueError
       end.

Definition lib_interface (s : string) : attempt (list Z * Z) :=
  if has_colon s then Raised NotAnException
  else match Py.split "/" s with
       | [a] =>
           match parse_address a with
           | Some o => Done (o, 32)
           | None => Raised ValueError
           end
       | [a; m] =>
           match parse_address a with
           | None => Raised ValueError
           | Some o =>
               if Py.truthy m && negb (all_digits m)
               then Raised NotAnException
               else match prefix m with
                    | Some n => Done (o, n)
                    | None => Raised ValueError
                    end
           end
       | _ => Raised ValueError
       end.

#[export] Instance lib : IpAddress := {|
  address := list Z;
  interface := (list Z * Z)%type;
  ip_address := lib_address;
  ip_interface := lib_interface
|}.

End IPv4.

(** * Properties *)

(** ** The two classes hold the same methods *)

Lemma CodeOperation_find_line_number_eq {E : ReEngine} :
  CodeOperation.find_line_number = Util.find_line_number.
Proof. reflexivity. Qed.

Lemma CodeOperation_find_line_in_code_eq {E : ReEngine} {P : PyParser} :
  CodeOperation.find_line_in_code = Util.find_line_in_code.
Proof. reflexivity. Qed.

(** ** The loops are the iterated steps *)

Section Loops.
Context {E : ReEngine}.
Variable needle : pattern.
Variables trigger_start trigger_stop : option pattern.

Lemma find_line_number_loop_scan (m : bool) (n : Z) (lines : list string) :
  Util.find_line_number_loop needle trigger_start trigger_stop m
    (Py.enumerate lines n)
  = scan needle trigger_start trigger_stop nonblank (fun k _ => k) m n lines.
Proof.
  revert m n; induction lines as [|l rest IH]; intros m n; simpl;
    [reflexivity|].
  unfold step, tests, nonblank, supplied_and_matches.
  destruct (Py.truthy (Py.strip l)); simpl; [|apply IH].
  destruct trigger_start as [p|]; simpl.
  - destruct (re_match p l) as [[|]|e]; simpl; try reflexivity; [apply IH|].
    destruct m; simpl.
    + destruct (re_match needle l) as [[|]|e]; simpl; try reflexivity.
      destruct trigger_stop as [q|]; simpl; [|apply IH].
      destruct (re_match q l) as [[|]|e]; simpl; try reflexivity; apply IH.
    + destruct trigger_stop as [q|]; simpl; [|apply IH].
      destruct (re_match q l) as [[|]|e]; simpl; try reflexivity; apply IH.
  - destruct m; simpl.
    + destruct (re_match needle l) as [[|]|e]; simpl; try reflexivity.
      destruct trigger_stop as [q|]; simpl; [|apply IH].
      destruct (re_match q l) as [[|]|e]; simpl; try reflexivity; apply IH.
    + destruct trigger_stop as [q|]; simpl; [|apply IH].
      destruct (re_match q l) as [[|]|e]; simpl; try reflexivity; apply IH.
Qed.

Lemma find_line_in_code_loop_scan (m : bool) (n : Z) (lines : list string) :
  Util.find_line_in_code_loop needle trigger_start trigger_stop m lines
  = scan needle trigger_start trigger_stop unquoted
      (fun _ line => Py.strip line) m n lines.
Proof.
  revert m n; induction lines as [|l rest IH]; intros m n; simpl;
    [reflexivity|].
  unfold step, tests, unquoted, supplied_and_matches.
  destruct (negb _); simpl; [|apply IH].
  destruct trigger_start as [p|]; simpl.
  - destruct (re_match p l) as [[|]|e]; simpl; try reflexivity; [apply IH|].
    destruct m; simpl.
    + destruct (re_match needle l) as [[|]|e]; simpl; try reflexivity.
      destruct trigger_stop as [q|]; simpl; [|apply IH].
      destruct (re_match q l) as [[|]|e]; simpl; try reflexivity; apply IH.
    + destruct trigger_stop as [q|]; simpl; [|apply IH].
      destruct (re_match q l) as [[|]|e]; simpl; try reflexivity; apply IH.
  - destruct m; simpl.
    + destruct (re_match needle l) as [[|]|e]; simpl; try reflexivity.
      destruct trigger_stop as [q|]; simpl; [|apply IH].
      destruct (re_match q l) as [[|]|e]; simpl; try reflexivity; apply IH.
    + destruct trigger_stop as [q|]; simpl; [|apply IH].
      destruct (re_match q l) as [[|]|e]; simpl; try reflexivity; apply IH.
Qed.

End Loops.

(** ** One step of the gate *)

Section Steps.
Context {E : ReEngine}.
Variable needle : pattern.
Variables trigger_start trigger_stop : option pattern.
Variable guard : string -> bool.

Local Abbreviation step := (step needle trigger_start trigger_stop guard).
Local Abbreviation gate_after :=
  (gate_after needle trigger_start trigger_stop guard).
Local Abbreviation gate_trace :=
  (gate_trace needle trigger_start trigger_stop guard).
Local Abbreviation scan := (scan needle trigger_start trigger_stop guard).

Lemma step_skipped (m : bool) (l : string) :
  guard l = false -> step m l = Return (Next m).
Proof. unfold Gate.step; intros ->; reflexivity. Qed.

Lemma step_started (m : bool) (l : string) :
  supplied_and_matches trigger_start l = Return true ->
  step m l = Return (Next (if guard l then true else m)).
Proof.
  unfold Gate.step, tests; intros ->; simpl.
  destruct (guard l); reflexivity.
Qed.

Lemma step_found (l : string) :
  guard l = true ->
  supplied_and_matches trigger_start l = Return false ->
  re_match needle l = Return true ->
  step true l = Return Found.
Proof.
  unfold Gate.step, tests; intros -> -> ->; reflexivity.
Qed.

Lemma step_stop (l : string) :
  guard l = true ->
  supplied_and_matches trigger_start l = Return false ->
  re_match needle l = Return false ->
  supplied_and_matches trigger_stop l = Return true ->
  step true l = Return Stop.
Proof.
  unfold Gate.step, tests, supplied_and_matches at 2.
  intros -> -> -> H; simpl.
  destruct trigger_stop as [q|]; [|discriminate].
  simpl in H; rewrite H; reflexivity.
Qed.

Lemma step_disarmed (l : string) (b c : bool) :
  supplied_and_matches trigger_start l = Return b ->
  supplied_and_matches trigger_stop l = Return c ->
  step false l = Return (Next (guard l && b)).
Proof.
  unfold Gate.step, tests, supplied_and_matches at 2.
  intros -> H; destruct (guard l); simpl; [|reflexivity].
  destruct b; simpl; [reflexivity|].
  destruct trigger_stop as [q|]; [|reflexivity].
  simpl in H; rewrite H; simpl; rewrite andb_false_r; reflexivity.
Qed.

(** What an outcome tells about the line. *)
Lemma step_inv (m : bool) (l : string) (o : outcome) :
  step m l = Return o ->
  match o with
  | Next m' =>
      (guard l = false /\ m' = m)
      \/ (guard l = true
          /\ supplied_and_matches trigger_start l = Return true
          /\ m' = true)
      \/ (guard l = true
          /\ supplied_and_matches trigger_start l = Return false
          /\ (m = true -> re_match needle l = Return false)
          /\ (exists c, supplied_and_matches trigger_stop l = Return c
                        /\ c && m = false)
          /\ m' = m)
  | Found =>
      guard l = true /\ m = true
      /\ supplied_and_matches trigger_start l = Return false
      /\ re_match needle l = Return true
  | Stop =>
      guard l = true /\ m = true
      /\ supplied_and_matches trigger_start l = Return false
      /\ re_match needle l = Return false
      /\ supplied_and_matches trigger_stop l = Return true
  end.
Proof.
  unfold Gate.step, tests.
  destruct (guard l) eqn:G; simpl;
    [|intros H; injection H as <-; left; auto].
  destruct (supplied_and_matches trigger_start l) as [[|]|e] eqn:S; simpl;
    try discriminate.
  { intros H; injection H as <-; right; left; auto. }
  assert (K : forall c, supplied_and_matches trigger_stop l = Return c ->
              (c' <- match trigger_stop with
                     | Some p => x <- re_match p l ;; Return (x && m)
                     | None => Return false
                     end ;; if c' then Return Stop else Return (Next m))
              = if c && m then Return Stop else Return (Next m)).
  { intros c; unfold supplied_and_matches.
    destruct trigger_stop as [q|]; simpl.
    - intros ->; reflexivity.
    - intros H; injection H as <-; reflexivity. }
  assert (K' : forall e, supplied_and_matches trigger_stop l = Raise e ->
              (c' <- match trigger_stop with
                     | Some p => x <- re_match p l ;; Return (x && m)
                     | None => Return false
                     end ;; if c' then Return Stop else Return (Next m))
              = Raise e).
  { intros e; unfold supplied_and_matches.
    destruct trigger_stop as [q|]; simpl; [intros ->; reflexivity|].
    discriminate. }
  destruct m; simpl.
  - destruct (re_match needle l) as [[|]|e] eqn:N; simpl; try discriminate.
    { intros H; injection H as <-; auto. }
    destruct (supplied_and_matches trigger_stop l) as [c|e] eqn:T.
    + rewrite (K c eq_refl), andb_true_r; destruct c.
      * intros H; injection H as <-; auto.
      * intros H; injection H as <-; right; right.
        repeat split; auto. exists false; auto.
    + rewrite (K' e eq_refl); discriminate.
  - destruct (supplied_and_matches trigger_stop l) as [c|e] eqn:T.
    + rewrite (K c eq_refl), andb_false_r.
      intros H; injection H as <-; right; right.
      repeat split; auto; try discriminate.
      exists c; split; auto. apply andb_false_r.
    + rewrite (K' e eq_refl); discriminate.
Qed.

(** The gate is never set back to [False]. *)
Lemma step_never_disarms (l : string) (m' : bool) :
  step true l = Return (Next m') -> m' = true.
Proof.
  intros H; apply step_inv in H; simpl in H.
  destruct H as [[_ ->]|[(_ & _ & ->)|(_ & _ & _ & _ & ->)]]; reflexivity.
Qed.

Lemma gate_after_never_disarms (pre : list string) (m' : bool) :
  gate_after true pre = Some m' -> m' = true.
Proof.
  induction pre as [|l pre IH]; simpl.
  - intros H; injection H as <-; reflexivity.
  - destruct (step true l) as [[m| |]|e] eqn:S; try discriminate.
    apply step_never_disarms in S; subst m; exact IH.
Qed.

Lemma gate_after_app (m : bool) (pre post : list string) :
  gate_after m (pre ++ post)
  = match gate_after m pre with
    | Some m' => gate_after m' post
    | None => None
    end.
Proof.
  revert m; induction pre as [|l pre IH]; intros m; simpl; [reflexivity|].
  destruct (step m l) as [[m1| |]|e]; auto.
Qed.

Lemma scan_app {A : Type} (found : Z -> string -> A) (m m' : bool) (n : Z)
    (pre rest : list string) :
  gate_after m pre = Some m' ->
  scan found m n (pre ++ rest)
  = scan found m' (n + Z.of_nat (length pre)) rest.
Proof.
  revert m n; induction pre as [|l pre IH]; intros m n; simpl.
  - intros H; injection H as <-; f_equal; lia.
  - destruct (step m l) as [[m1| |]|e]; try discriminate; simpl.
    intros H; rewrite (IH _ _ H); f_equal; lia.
Qed.

(** A result other than [None] comes from a line where the needle is
    found, reached with the gate armed. *)
Lemma scan_Some_inv {A : Type} (found : Z -> string -> A) (m : bool) (n : Z)
    (lines : list string) (x : A) :
  scan found m n lines = Return (Some x) ->
  exists pre l post m',
    lines = pre ++ l :: post
    /\ gate_after m pre = Some m'
    /\ step m' l = Return Found
    /\ x = found (n + Z.of_nat (length pre)) l.
Proof.
  revert m n; induction lines as [|l rest IH]; intros m n; simpl;
    [discriminate|].
  destruct (step m l) as [[m1| |]|e] eqn:S; simpl; try discriminate.
  - intros H; destruct (IH _ _ H) as (pre & l' & post & m' & -> & G & F & ->).
    exists (l :: pre), l', post, m'; simpl; rewrite S.
    repeat split; auto. f_equal; lia.
  - intros H; injection H as <-.
    exists [], l, rest, m; simpl; repeat split; auto. f_equal; lia.
Qed.

Lemma scan_Found {A : Type} (found : Z -> string -> A) (m m' : bool)
    (n : Z) (pre post : list string) (l : string) :
  gate_after m pre = Some m' ->
  step m' l = Return Found ->
  scan found m n (pre ++ l :: post)
  = Return (Some (found (n + Z.of_nat (length pre)) l)).
Proof.
  intros G S; rewrite (scan_app _ _ _ _ _ _ G); simpl; rewrite S; reflexivity.
Qed.

Lemma scan_Stop {A : Type} (found : Z -> string -> A) (m m' : bool)
    (n : Z) (pre post : list string) (l : string) :
  gate_after m pre = Some m' ->
  step m' l = Return Stop ->
  scan found m n (pre ++ l :: post) = Return None.
Proof.
  intros G S; rewrite (scan_app _ _ _ _ _ _ G); simpl; rewrite S; reflexivity.
Qed.

(** Adjacent values of a trace. *)
Lemma gate_trace_never_disarms (m : bool) (lines : list string)
    (pre post : list bool) (a b : bool) :
  gate_trace m lines = pre ++ a :: b :: post -> a = true -> b = true.
Proof.
  revert m pre; induction lines as [|l rest IH]; intros m pre; simpl.
  - destruct pre as [|x [|y pre]]; discriminate.
  - destruct (step m l) as [[m1| |]|e] eqn:S;
      try (destruct pre as [|x [|y pre]]; discriminate).
    destruct pre as [|x pre]; simpl; intros H; injection H as -> H.
    + intros ->. destruct rest; simpl in H; injection H as <- _;
        apply (step_never_disarms _ _ S).
    + exact (IH _ _ H).
Qed.

End Steps.

(** ** The string operations *)

Section Strings.
Local Open Scope string_scope.

Lemma split_not_nil (sep : ascii) (s : string) : Py.split sep s <> [].
Proof.
  destruct s as [|c r]; simpl; [discriminate|].
  destruct (Ascii.eqb c sep); [discriminate|].
  destruct (Py.split sep r); discriminate.
Qed.

Lemma lstrip_cases (s : string) :
  Py.lstrip s = EmptyString
  \/ exists c r, Py.lstrip s = String c r /\ Py.isspace c = false.
Proof.
  induction s as [|c r IH]; simpl; [left; reflexivity|].
  destruct (Py.isspace c) eqn:W; [exact IH|].
  right; exists c, r; split; [reflexivity | exact W].
Qed.

Lemma rstrip_head (c : ascii) (r : string) :
  Py.isspace c = false -> exists r', Py.rstrip (String c r) = String c r'.
Proof.
  intros W; simpl; rewrite W.
  destruct (Py.rstrip r) as [|b r']; eauto.
Qed.

Lemma rstrip_idem (s : string) : Py.rstrip (Py.rstrip s) = Py.rstrip s.
Proof.
  induction s as [|a r IH]; simpl; [reflexivity|].
  destruct (Py.rstrip r) as [|b r'] eqn:R.
  - destruct (Py.isspace a) eqn:W; simpl; [reflexivity|].
    rewrite W; reflexivity.
  - change (Py.rstrip (String a (String b r')))
      with (match Py.rstrip (String b r') with
            | EmptyString =>
                if Py.isspace a then EmptyString else String a EmptyString
            | x => String a x
            end).
    rewrite IH; reflexivity.
Qed.

Lemma rstrip_last (s s' : string) (c : ascii) :
  Py.rstrip s = s' ++ String c EmptyString -> Py.isspace c = false.
Proof.
  revert s'; induction s as [|a r IH]; intros s'; simpl.
  - destruct s'; discriminate.
  - destruct (Py.rstrip r) as [|b r'] eqn:R.
    + destruct (Py.isspace a) eqn:W.
      * destruct s'; discriminate.
      * destruct s' as [|x s']; simpl; intros H.
        -- injection H as ->; exact W.
        -- injection H as _ H; destruct s'; discriminate.
    + destruct s' as [|x s']; simpl; intros H.
      * discriminate.
      * injection H as _ H; exact (IH _ H).
Qed.

(** [s.strip()] is a fixed point of both strips. *)
Lemma rstrip_strip (s : string) : Py.rstrip (Py.strip s) = Py.strip s.
Proof. apply rstrip_idem. Qed.

Lemma lstrip_strip (s : string) : Py.lstrip (Py.strip s) = Py.strip s.
Proof.
  unfold Py.strip.
  destruct (lstrip_cases s) as [->|(c & r & -> & W)]; [reflexivity|].
  destruct (rstrip_head c r W) as (r' & ->); simpl; rewrite W; reflexivity.
Qed.

Lemma strip_first (s : string) (c : ascii) (r : string) :
  Py.strip s = String c r ->
  Py.isspace c = false
  /\ Py.slice_to 1 (Py.lstrip s) = String c EmptyString.
Proof.
  unfold Py.strip.
  destruct (lstrip_cases s) as [->|(d & t & -> & W)]; [discriminate|].
  destruct (rstrip_head d t W) as (t' & ->).
  intros H; injection H as -> _; split; [exact W|].
  unfold Py.slice_to; simpl; destruct t; reflexivity.
Qed.

Lemma strip_last (s s' : string) (c : ascii) :
  Py.strip s = s' ++ String c EmptyString -> Py.isspace c = false.
Proof. apply rstrip_last. Qed.

(** The first character of the stripped form of a line that passes the
    guard of [find_line_in_code] is no quote. *)
Lemma unquoted_strip_first (l : string) (c : ascii) (r : string) :
  unquoted l = true ->
  Py.strip l = String c r ->
  c <> "'"%char /\ c <> ascii_of_nat 34.
Proof.
  unfold unquoted; intros U H.
  destruct (strip_first _ _ _ H) as [_ S]; rewrite S in U.
  split; intros ->; discriminate.
Qed.

End Strings.

(** ** The two methods as scans *)

Section Calls.
Context {E : ReEngine} {P : PyParser}.
Variable needle : pattern.
Variables trigger_start trigger_stop : option pattern.

Lemma find_line_number_scan (contents : string) :
  Util.find_line_number needle contents trigger_start trigger_stop
  = scan needle trigger_start trigger_stop nonblank (fun k _ => k)
      (initial_gate trigger_start) 1 (lines_of contents).
Proof. apply find_line_number_loop_scan. Qed.

Lemma find_line_in_code_scan (code : string) :
  Util.find_line_in_code needle code trigger_start trigger_stop
  = (tree <- ast_parse code ;;
     scan needle trigger_start trigger_stop unquoted
       (fun _ line => Py.strip line)
       (initial_gate trigger_start) 1 (lines_of (unparse tree))).
Proof.
  unfold Util.find_line_in_code.
  destruct (ast_parse code) as [tree|e]; simpl; [|reflexivity].
  apply find_line_in_code_loop_scan.
Qed.

(** The loop resumed after a prefix it went through. *)
Lemma find_line_number_resume (contents : string) (pre rest : list string)
    (m : bool) :
  lines_of contents = pre ++ rest ->
  gate_after needle trigger_start trigger_stop nonblank
    (initial_gate trigger_start) pre = Some m ->
  Util.find_line_number needle contents trigger_start trigger_stop
  = Util.find_line_number_loop needle trigger_start trigger_stop m
      (Py.enumerate rest (Z.of_nat (length pre) + 1)).
Proof.
  intros L G.
  rewrite find_line_number_scan, L, (scan_app _ _ _ _ _ _ _ _ _ _ G).
  rewrite find_line_number_loop_scan; f_equal; lia.
Qed.

Lemma find_line_in_code_resume (code : string) (tree : ast)
    (pre rest : list string) (m : bool) :
  ast_parse code = Return tree ->
  lines_of (unparse tree) = pre ++ rest ->
  gate_after needle trigger_start trigger_stop unquoted
    (initial_gate trigger_start) pre = Some m ->
  Util.find_line_in_code needle code trigger_start trigger_stop
  = Util.find_line_in_code_loop needle trigger_start trigger_stop m rest.
Proof.
  intros T L G.
  rewrite find_line_in_code_scan, T; simpl.
  rewrite L, (scan_app _ _ _ _ _ _ _ _ _ _ G).
  symmetry; apply find_line_in_code_loop_scan.
Qed.

End Calls.

(** ** Well-formed patterns never raise *)

Lemma well_formed_match {E : ReEngine} (p : pattern) (l : string) :
  well_formed p -> exists b, re_match p l = Return b.
Proof.
  intros [r H]; unfold re_match; rewrite H; simpl; eauto.
Qed.

Lemma well_formed_supplied {E : ReEngine} (p : option pattern) (l : string) :
  well_formed_opt p -> exists b, supplied_and_matches p l = Return b.
Proof.
  destruct p as [q|]; simpl; [apply well_formed_match | eauto].
Qed.

Lemma step_total {E : ReEngine} (needle : pattern)
    (ts te : option pattern) (guard : string -> bool) (m : bool) (l : string) :
  well_formed needle -> well_formed_opt ts -> well_formed_opt te ->
  exists o, step needle ts te guard m l = Return o.
Proof.
  intros Wn Ws We; unfold step, tests.
  destruct (guard l); [|eauto].
  destruct (well_formed_supplied ts l Ws) as [b ->]; simpl.
  destruct b; [eauto|].
  destruct (well_formed_match needle l Wn) as [c Hc].
  assert (F : exists d, (if m then re_match needle l else Return false)
                        = Return d)
    by (destruct m; eauto).
  destruct F as [d ->]; simpl.
  destruct d; [eauto|].
  destruct te as [q|]; simpl; [|eauto].
  destruct (well_formed_match q l We) as [x ->]; simpl.
  destruct (x && m); eauto.
Qed.

Lemma scan_total {E : ReEngine} {A : Type} (needle : pattern)
    (ts te : option pattern) (guard : string -> bool)
    (found : Z -> string -> A) (m : bool) (n : Z) (lines : list string) :
  well_formed needle -> well_formed_opt ts -> well_formed_opt te ->
  exists v, scan needle ts te guard found m n lines = Return v.
Proof.
  intros Wn Ws We; revert m n.
  induction lines as [|l rest IH]; intros m n; simpl; [eauto|].
  destruct (step_total needle ts te guard m l Wn Ws We) as [o ->]; simpl.
  destruct o; eauto.
Qed.

(** * The claims *)

(** ** C1: the gate invariant *)

(** C1, as stated, fails at an empty-string start trigger: when
    [find_line_number] is called with the empty string for [trigger_start],
    a start trigger is supplied, and the gate is armed from the first
    iteration on, since [not trigger_start] is [True] for the empty
    string. *)
Lemma C1_empty_start_trigger_is_armed :
  let trigger_start : option (pattern (E := MiniRe.engine)) :=
    Some (Str EmptyString) in
  let contents := ("a" ++ LF ++ "bar")%string in
  trigger_start <> None
  /\ initial_gate trigger_start = true
  /\ Util.find_line_number (Str "bar") contents trigger_start None
     = Util.find_line_number_loop (Str "bar") trigger_start None true
         (Py.enumerate (lines_of contents) 1)
  /\ gate_trace (Str "bar") trigger_start None nonblank
       (initial_gate trigger_start) (lines_of contents)
     = [true; true; true]
  /\ ~ (initial_gate trigger_start = true <-> trigger_start = None).
Proof.
  cbv zeta; repeat split; try reflexivity; try discriminate.
  intros [H _]; specialize (H eq_refl); discriminate.
Qed.

(** C1, amended: in every call of [find_line_number] or [find_line_in_code]
    the gate [magnet_on] starts armed if and only if [trigger_start] is
    [None] or the empty string (it is [not trigger_start]); both methods
    are the scan of the gate machine from that value; along the scan the
    gate never goes from armed to disarmed; the stop trigger fires only
    while the gate is armed, on a line that matches it, and ends the scan
    with [None] whatever the remaining lines are. *)
Theorem C1_gate_invariant {E : ReEngine} {P : PyParser}
    (needle : pattern) (trigger_start trigger_stop : option pattern) :
  (initial_gate trigger_start = true
   <-> trigger_start = None \/ trigger_start = Some (Str EmptyString))
  /\ (forall contents,
        Util.find_line_number needle contents trigger_start trigger_stop
        = scan needle trigger_start trigger_stop nonblank (fun k _ => k)
            (initial_gate trigger_start) 1 (lines_of contents)
        /\ CodeOperation.find_line_number needle contents
             trigger_start trigger_stop
           = Util.find_line_number needle contents trigger_start trigger_stop)
  /\ (forall code,
        Util.find_line_in_code needle code trigger_start trigger_stop
        = (tree <- ast_parse code ;;
           scan needle trigger_start trigger_stop unquoted
             (fun _ line => Py.strip line)
             (initial_gate trigger_start) 1 (lines_of (unparse tree)))
        /\ CodeOperation.find_line_in_code needle code
             trigger_start trigger_stop
           = Util.find_line_in_code needle code trigger_start trigger_stop)
  /\ (forall guard lines pre a b post,
        gate_trace needle trigger_start trigger_stop guard
          (initial_gate trigger_start) lines = pre ++ a :: b :: post ->
        a = true -> b = true)
  /\ (forall guard m line,
        step needle trigger_start trigger_stop guard m line = Return Stop ->
        m = true
        /\ supplied_and_matches trigger_stop line = Return true
        /\ forall (A : Type) (found : Z -> string -> A) n rest,
             scan needle trigger_start trigger_stop guard found m n
               (line :: rest) = Return None).
Proof.
  split; [|split; [|split; [|split]]].
  - unfold initial_gate, truthy.
    destruct trigger_start as [[[|c s]|r]|]; simpl; split; auto;
      try discriminate; intros [H|H]; discriminate.
  - intros contents; split; [apply find_line_number_scan | reflexivity].
  - intros code; split; [apply find_line_in_code_scan | reflexivity].
  - intros guard lines pre a b post.
    apply gate_trace_never_disarms.
  - intros guard m line S.
    pose proof (step_inv _ _ _ _ _ _ _ S) as (_ & Hm & _ & _ & Ht).
    repeat split; auto.
    intros A found n rest; simpl; rewrite S; reflexivity.
Qed.

(** The invariant at work on a scan that arms the gate, keeps it armed and
    is ended by the stop trigger. *)
Lemma C1_gate_invariant_witness :
  let needle : pattern (E := MiniRe.engine) := Str "def y" in
  let trigger_start := Some (Str "class X") in
  let trigger_stop := Some (Str "class ") in
  let lines := ["import os"; "class X"; "pass"; "class Z"; "def y"] in
  initial_gate trigger_start = false
  /\ gate_trace needle trigger_start trigger_stop nonblank
       (initial_gate trigger_start) lines = [false; false; true; true]
  /\ (forall pre a b post,
        [false; false; true; true] = pre ++ a :: b :: post ->
        a = true -> b = true)
  /\ step needle trigger_start trigger_stop nonblank true "class Z"
     = Return Stop
  /\ scan needle trigger_start trigger_stop nonblank (fun k _ => k) true 4
       ["class Z"; "def y"] = Return None.
Proof.
  cbv zeta.
  pose proof (C1_gate_invariant (E := MiniRe.engine) (P := MicroPy.parser)
                (Str "def y") (Some (Str "class X")) (Some (Str "class ")))
    as (_ & _ & _ & Htrace & Hstop).
  split; [reflexivity|]. split; [reflexivity|].
  split.
  - intros pre a b post H.
    exact (Htrace nonblank ["import os"; "class X"; "pass"; "class Z"; "def y"]
             pre a b post H).
  - destruct (Hstop nonblank true "class Z" eq_refl) as (_ & _ & Hscan).
    split; [reflexivity|].
    exact (Hscan Z (fun k _ => k) 4 ["def y"]).
Defined.

(** ** C2: the line number of the first match *)

(** With neither trigger, no line of a prefix the scan went through
    matched the needle, unless it was blank. *)
Lemma gate_after_untriggered {E : ReEngine} (needle : pattern)
    (guard : string -> bool) (pre : list string) (m : bool) :
  gate_after needle None None guard true pre = Some m ->
  forall l, In l pre -> guard l = true -> re_match needle l = Return false.
Proof.
  revert m; induction pre as [|x pre IH]; intros m; simpl; [contradiction|].
  destruct (step needle None None guard true x) as [[m1| |]|e] eqn:S;
    try discriminate.
  pose proof (step_never_disarms _ _ _ _ _ _ S); subst m1.
  intros G l [<-|Hin] Hg; [|exact (IH _ G l Hin Hg)].
  apply step_inv in S; simpl in S.
  destruct S as [[Hf _]|[(_ & Hs & _)|(_ & _ & Hn & _)]].
  - congruence.
  - discriminate.
  - auto.
Qed.

(** C2: [find_line_number] returns [n] exactly when the line at the 1-based
    position [n] of [contents.split('\n')], every line before it counted,
    blank or not, is the first one where the needle is found: the scan went
    through the lines before it without returning or stopping, the gate is
    armed, the line is not blank, does not match the start trigger and
    matches the needle.  With no triggers no earlier non-blank line matches
    the needle.  For the contents ["a\nfoo\nb\nbar\n"], the needle [bar] and
    no triggers the result is 4, in both classes; two blank lines before
    [bar] are counted. *)
Theorem C2_line_number_of_first_match :
  Util.find_line_number (E := MiniRe.engine) (Str "bar")
    ("a" ++ LF ++ "foo" ++ LF ++ "b" ++ LF ++ "bar" ++ LF)%string None None
  = Return (Some 4)
  /\ CodeOperation.find_line_number (E := MiniRe.engine) (Str "bar")
       ("a" ++ LF ++ "foo" ++ LF ++ "b" ++ LF ++ "bar" ++ LF)%string None None
     = Return (Some 4)
  /\ Util.find_line_number (E := MiniRe.engine) (Str "bar")
       (LF ++ "  " ++ LF ++ "bar")%string None None
     = Return (Some 3)
  /\ (forall (E : ReEngine) (needle : pattern)
        (trigger_start trigger_stop : option pattern)
        (contents : string) (n : Z),
        Util.find_line_number needle contents trigger_start trigger_stop
        = Return (Some n)
        <-> exists pre line post,
              lines_of contents = pre ++ line :: post
              /\ n = Z.of_nat (length pre) + 1
              /\ gate_after needle trigger_start trigger_stop nonblank
                   (initial_gate trigger_start) pre = Some true
              /\ nonblank line = true
              /\ supplied_and_matches trigger_start line = Return false
              /\ re_match needle line = Return true)
  /\ (forall (E : ReEngine) (needle : pattern) (contents : string) (n : Z),
        Util.find_line_number needle contents None None = Return (Some n) ->
        exists pre line post,
          lines_of contents = pre ++ line :: post
          /\ n = Z.of_nat (length pre) + 1
          /\ nonblank line = true
          /\ re_match needle line = Return true
          /\ forall l, In l pre -> nonblank l = true ->
                       re_match needle l = Return false).
Proof.
  split; [reflexivity|]. split; [reflexivity|]. split; [reflexivity|].
  assert (K : forall (E : ReEngine) (needle : pattern)
                (trigger_start trigger_stop : option pattern)
                (contents : string) (n : Z),
             Util.find_line_number needle contents trigger_start trigger_stop
             = Return (Some n)
             -> exists pre line post,
                 lines_of contents = pre ++ line :: post
                 /\ n = Z.of_nat (length pre) + 1
                 /\ gate_after needle trigger_start trigger_stop nonblank
                      (initial_gate trigger_start) pre = Some true
                 /\ nonblank line = true
                 /\ supplied_and_matches trigger_start line = Return false
                 /\ re_match needle line = Return true).
  { intros E needle ts te contents n H.
    rewrite find_line_number_scan in H.
    apply scan_Some_inv in H.
    destruct H as (pre & l & post & m' & L & G & F & ->).
    apply step_inv in F; simpl in F; destruct F as (Hg & -> & Hs & Hn).
    exists pre, l, post; repeat split; auto; lia. }
  split.
  - intros E needle ts te contents n; split; [apply K|].
    intros (pre & l & post & L & -> & G & Hg & Hs & Hn).
    rewrite find_line_number_scan, L.
    rewrite (scan_Found _ _ _ _ _ _ _ _ _ _ _ G
               (step_found _ _ _ _ _ Hg Hs Hn)).
    do 2 f_equal; lia.
  - intros E needle contents n H.
    destruct (K E needle None None contents n H)
      as (pre & l & post & L & -> & G & Hg & _ & Hn).
    exists pre, l, post; repeat split; auto.
    exact (gate_after_untriggered _ _ _ _ G).
Qed.

(** The last part of C2 on the lines [a], [foo], [b], [bar] and the empty
    last line: the result 4 is the position of a non-blank line that
    matches [bar], after three lines that do not. *)
Lemma C2_line_number_of_first_match_witness :
  exists pre line post,
    lines_of ("a" ++ LF ++ "foo" ++ LF ++ "b" ++ LF ++ "bar" ++ LF)%string
    = pre ++ line :: post
    /\ 4 = Z.of_nat (length pre) + 1
    /\ nonblank line = true
    /\ re_match (E := MiniRe.engine) (Str "bar") line = Return true
    /\ forall l, In l pre -> nonblank l = true ->
                 re_match (E := MiniRe.engine) (Str "bar") l = Return false.
Proof.
  destruct C2_line_number_of_first_match as (HA & _ & _ & _ & Hfirst).
  exact (Hfirst MiniRe.engine (Str "bar") _ 4 HA).
Defined.

(** ** C3: the stop trigger ends an armed search *)

(** C3, as stated, fails when the line that matches the stop trigger also
    matches the start trigger.  In
    [find_line_number('def y', 'class X\nclass XY\ndef y', 'class X',
    'class ')] line 1 arms the gate; line 2 matches the stop trigger with the
    gate armed and no line has matched the needle yet; line 2 also matches
    the start trigger, so the [continue] skips the stop test, and the result
    is line 3, not [None].  Likewise a blank line is skipped before the stop
    test: with no start trigger, the needle [bar] and the stop trigger made
    of one space, the contents of a line of two spaces followed by the line
    [bar] give line 2. *)
Lemma C3_stop_line_matching_start_does_not_stop :
  let needle : pattern (E := MiniRe.engine) := Str "def y" in
  let trigger_start := Some (Str "class X") in
  let trigger_stop := Some (Str "class ") in
  let contents := ("class X" ++ LF ++ "class XY" ++ LF ++ "def y")%string in
  lines_of contents = ["class X"; "class XY"; "def y"]
  /\ gate_after needle trigger_start trigger_stop nonblank
       (initial_gate trigger_start) ["class X"] = Some true
  /\ supplied_and_matches trigger_stop "class XY" = Return true
  /\ re_match needle "class X" = Return false
  /\ re_match needle "class XY" = Return false
  /\ Util.find_line_number needle contents trigger_start trigger_stop
     = Return (Some 3)
  /\ Util.find_line_number needle contents trigger_start trigger_stop
     <> Return None
  /\ lines_of ("  " ++ LF ++ "bar")%string = ["  "; "bar"]
  /\ re_match (E := MiniRe.engine) (Str " ") "  " = Return true
  /\ Util.find_line_number (E := MiniRe.engine) (Str "bar")
       ("  " ++ LF ++ "bar")%string None (Some (Str " "))
     = Return (Some 2).
Proof.
  cbv zeta; repeat split; try reflexivity; discriminate.
Qed.

(** C3, amended: in both variants, if [trigger_stop] is supplied and a line
    that is not skipped by the guard of the loop (blank, or starting with a
    quote) and does not match [trigger_start] matches [trigger_stop], with
    the gate armed when the scan reaches it and without matching the needle
    itself, then the result is [None], whatever the lines after it are, also
    when one of them matches the needle. *)
Theorem C3_stop_trigger_ends_search {E : ReEngine} {P : PyParser}
    (needle stop : pattern) (trigger_start : option pattern)
    (pre post : list string) (line : string) :
  supplied_and_matches trigger_start line = Return false ->
  re_match needle line = Return false ->
  re_match stop line = Return true ->
  (forall contents,
     lines_of contents = pre ++ line :: post ->
     nonblank line = true ->
     gate_after needle trigger_start (Some stop) nonblank
       (initial_gate trigger_start) pre = Some true ->
     Util.find_line_number needle contents trigger_start (Some stop)
     = Return None
     /\ CodeOperation.find_line_number needle contents trigger_start
          (Some stop) = Return None)
  /\ (forall code tree,
        ast_parse code = Return tree ->
        lines_of (unparse tree) = pre ++ line :: post ->
        unquoted line = true ->
        gate_after needle trigger_start (Some stop) unquoted
          (initial_gate trigger_start) pre = Some true ->
        Util.find_line_in_code needle code trigger_start (Some stop)
        = Return None
        /\ CodeOperation.find_line_in_code needle code trigger_start
             (Some stop) = Return None).
Proof.
  intros Hs Hn Ht; split.
  - intros contents L Hg G.
    assert (R : Util.find_line_number needle contents trigger_start
                  (Some stop) = Return None).
    { rewrite find_line_number_scan, L.
      apply (scan_Stop _ _ _ _ _ _ _ _ _ _ _ G).
      apply step_stop; auto. }
    split; exact R.
  - intros code tree T L Hg G.
    assert (R : Util.find_line_in_code needle code trigger_start
                  (Some stop) = Return None).
    { rewrite find_line_in_code_scan, T; simpl; rewrite L.
      apply (scan_Stop _ _ _ _ _ _ _ _ _ _ _ G).
      apply step_stop; auto. }
    split; exact R.
Qed.

(** The stop trigger [class ] ends the search for [def y] at [class Z],
    before the [def y] of the later lines; and [stop] ends the search for
    [needle] in an unparsed module. *)
Lemma C3_stop_trigger_ends_search_witness :
  Util.find_line_number (E := MiniRe.engine) (Str "def y")
    ("class X" ++ LF ++ "class Z" ++ LF ++ "def y")%string
    (Some (Str "class X")) (Some (Str "class ")) = Return None
  /\ Util.find_line_in_code (E := MiniRe.engine) (P := MicroPy.parser)
       (Str "needle") ("start" ++ LF ++ "stop" ++ LF ++ "needle" ++ LF)%string
       (Some (Str "start")) (Some (Str "stop")) = Return None.
Proof.
  split.
  - refine (proj1 (proj1 (C3_stop_trigger_ends_search
                            (E := MiniRe.engine) (P := MicroPy.parser)
                            (Str "def y") (Str "class ")
                            (Some (Str "class X"))
                            ["class X"] ["def y"] "class Z"
                            eq_refl eq_refl eq_refl)
                     ("class X" ++ LF ++ "class Z" ++ LF ++ "def y")%string
                     eq_refl eq_refl eq_refl)).
  - refine (proj1 (proj2 (C3_stop_trigger_ends_search
                            (E := MiniRe.engine) (P := MicroPy.parser)
                            (Str "needle") (Str "stop")
                            (Some (Str "start"))
                            [EmptyString; "start"] ["needle"; EmptyString]
                            "stop"
                            eq_refl eq_refl eq_refl)
                     ("start" ++ LF ++ "stop" ++ LF ++ "needle" ++ LF)%string
                     [MicroPy.ExprName "start"; MicroPy.ExprName "stop";
                        MicroPy.ExprName "needle"]
                     eq_refl eq_refl eq_refl eq_refl)).
Defined.

(** ** C4: the line of the start trigger *)

Lemma app_cons_same_length {A : Type} (pre pre' post post' : list A)
    (x x' : A) :
  pre ++ x :: post = pre' ++ x' :: post' ->
  length pre = length pre' ->
  x = x'.
Proof.
  revert pre'; induction pre as [|a pre IH]; intros [|a' pre']; simpl;
    try discriminate.
  - intros H _; injection H as -> _; reflexivity.
  - intros H L; injection H as _ H; injection L as L; exact (IH _ H L).
Qed.

(** C4: a line that matches [trigger_start] ends its iteration at the
    [continue]: the step on it is never [Found] and never [Stop], whatever
    the gate is.  So in [find_line_number] its line number is never the
    result, in both variants the result of the call is the result of the
    loop resumed at the line after it, and every text [find_line_in_code]
    returns is the stripped form of a line that does not match
    [trigger_start]. *)
Theorem C4_start_trigger_line_is_consumed {E : ReEngine} {P : PyParser}
    (needle start : pattern) (trigger_stop : option pattern)
    (line : string) :
  re_match start line = Return true ->
  (forall guard m,
     step needle (Some start) trigger_stop guard m line
     = Return (Next (if guard line then true else m)))
  /\ (forall contents pre post,
        lines_of contents = pre ++ line :: post ->
        Util.find_line_number needle contents (Some start) trigger_stop
        <> Return (Some (Z.of_nat (length pre) + 1))
        /\ CodeOperation.find_line_number needle contents (Some start)
             trigger_stop
           <> Return (Some (Z.of_nat (length pre) + 1))
        /\ forall m,
             gate_after needle (Some start) trigger_stop nonblank
               (initial_gate (Some start)) pre = Some m ->
             Util.find_line_number needle contents (Some start) trigger_stop
             = Util.find_line_number_loop needle (Some start) trigger_stop
                 (if nonblank line then true else m)
                 (Py.enumerate post (Z.of_nat (length pre) + 2)))
  /\ (forall code tree pre post m,
        ast_parse code = Return tree ->
        lines_of (unparse tree) = pre ++ line :: post ->
        gate_after needle (Some start) trigger_stop unquoted
          (initial_gate (Some start)) pre = Some m ->
        Util.find_line_in_code needle code (Some start) trigger_stop
        = Util.find_line_in_code_loop needle (Some start) trigger_stop
            (if unquoted line then true else m) post
        /\ CodeOperation.find_line_in_code needle code (Some start)
             trigger_stop
           = CodeOperation.find_line_in_code_loop needle (Some start)
               trigger_stop (if unquoted line then true else m) post)
  /\ (forall code text,
        Util.find_line_in_code needle code (Some start) trigger_stop
        = Return (Some text) ->
        exists tree pre returned post,
          ast_parse code = Return tree
          /\ lines_of (unparse tree) = pre ++ returned :: post
          /\ gate_after needle (Some start) trigger_stop unquoted
               (initial_gate (Some start)) pre = Some true
          /\ text = Py.strip returned
          /\ re_match start returned = Return false).
Proof.
  intros Hm.
  assert (S : forall guard m,
             step needle (Some start) trigger_stop guard m line
             = Return (Next (if guard line then true else m))).
  { intros guard m; apply step_started; exact Hm. }
  split; [exact S|]. split; [|split].
  - intros contents pre post L.
    assert (N : Util.find_line_number needle contents (Some start)
                  trigger_stop
                <> Return (Some (Z.of_nat (length pre) + 1))).
    { rewrite find_line_number_scan; intros H.
      apply scan_Some_inv in H.
      destruct H as (pre' & l' & post' & m' & L' & _ & F & Hn).
      apply step_inv in F; simpl in F; destruct F as (_ & _ & Hs & _).
      rewrite L in L'.
      assert (Hl : length pre = length pre') by lia.
      rewrite (app_cons_same_length _ _ _ _ _ _ L' Hl) in Hm.
      rewrite Hm in Hs; discriminate. }
    split; [exact N|]. split; [exact N|].
    intros m G.
    assert (G' : gate_after needle (Some start) trigger_stop nonblank
                   (initial_gate (Some start)) (pre ++ [line])
                 = Some (if nonblank line then true else m)).
    { rewrite gate_after_app, G; simpl; rewrite S; reflexivity. }
    rewrite (find_line_number_resume needle (Some start) trigger_stop
               contents (pre ++ [line]) post _
               ltac:(rewrite <- app_assoc; exact L) G').
    f_equal. f_equal. rewrite length_app; simpl; lia.
  - intros code tree pre post m T L G.
    assert (G' : gate_after needle (Some start) trigger_stop unquoted
                   (initial_gate (Some start)) (pre ++ [line])
                 = Some (if unquoted line then true else m)).
    { rewrite gate_after_app, G; simpl; rewrite S; reflexivity. }
    assert (R := find_line_in_code_resume needle (Some start) trigger_stop
                   code tree (pre ++ [line]) post _ T
                   ltac:(rewrite <- app_assoc; exact L) G').
    split; exact R.
  - intros code text H.
    rewrite find_line_in_code_scan in H.
    destruct (ast_parse code) as [tree|e]; simpl in H; [|discriminate].
    apply scan_Some_inv in H.
    destruct H as (pre' & l' & post' & m' & L' & G & F & ->).
    apply step_inv in F; simpl in F; destruct F as (_ & -> & Hs & _).
    exists tree, pre', l', post'; repeat split; auto.
Qed.

(** On [start], [stop], [needle] with the start trigger [start]: line 2 is
    not the result when it is the trigger line, and the call is the loop
    resumed at line 3 with the gate armed. *)
Lemma C4_start_trigger_line_is_consumed_witness :
  let needle : pattern (E := MiniRe.engine) := Str "st" in
  let contents := ("stop" ++ LF ++ "start" ++ LF ++ "stem")%string in
  step needle (Some (Str "start")) None nonblank false "start"
  = Return (Next true)
  /\ Util.find_line_number needle contents (Some (Str "start")) None
     <> Return (Some 2)
  /\ Util.find_line_number needle contents (Some (Str "start")) None
     = Util.find_line_number_loop needle (Some (Str "start")) None true
         (Py.enumerate ["stem"] 3).
Proof.
  cbv zeta.
  destruct (C4_start_trigger_line_is_consumed
              (E := MiniRe.engine) (P := MicroPy.parser)
              (Str "st") (Str "start") None "start" eq_refl)
    as (Hstep & Hnum & _).
  split; [exact (Hstep nonblank false)|].
  destruct (Hnum ("stop" ++ LF ++ "start" ++ LF ++ "stem")%string
              ["stop"] ["stem"] eq_refl) as (Hne & _ & Hres).
  split; [exact Hne|].
  exact (Hres false eq_refl).
Defined.

(** ** C5: the stop trigger while the gate is disarmed *)

(** C5: a line that matches [trigger_stop] while the gate is disarmed does
    not end the scan: its step is a [Next], and the result of the call is
    the result of the loop resumed at the line after it.  A needle after a
    later match of [trigger_start] is then returned: line 3 of
    [stop], [start], [needle]. *)
Theorem C5_stop_trigger_ignored_while_disarmed :
  (forall (E : ReEngine) (P : PyParser) (needle stop : pattern)
      (trigger_start : option pattern) (pre post : list string)
      (line : string),
      well_formed_opt trigger_start ->
      re_match stop line = Return true ->
      (forall contents,
         lines_of contents = pre ++ line :: post ->
         gate_after needle trigger_start (Some stop) nonblank
           (initial_gate trigger_start) pre = Some false ->
         exists m,
           step needle trigger_start (Some stop) nonblank false line
           = Return (Next m)
           /\ Util.find_line_number needle contents trigger_start (Some stop)
              = Util.find_line_number_loop needle trigger_start (Some stop)
                  m (Py.enumerate post (Z.of_nat (length pre) + 2))
           /\ CodeOperation.find_line_number needle contents trigger_start
                (Some stop)
              = CodeOperation.find_line_number_loop needle trigger_start
                  (Some stop) m
                  (Py.enumerate post (Z.of_nat (length pre) + 2)))
      /\ (forall code tree,
            ast_parse code = Return tree ->
            lines_of (unparse tree) = pre ++ line :: post ->
            gate_after needle trigger_start (Some stop) unquoted
              (initial_gate trigger_start) pre = Some false ->
            exists m,
              step needle trigger_start (Some stop) unquoted false line
              = Return (Next m)
              /\ Util.find_line_in_code needle code trigger_start (Some stop)
                 = Util.find_line_in_code_loop needle trigger_start
                     (Some stop) m post
              /\ CodeOperation.find_line_in_code needle code trigger_start
                   (Some stop)
                 = CodeOperation.find_line_in_code_loop needle trigger_start
                     (Some stop) m post))
  /\ Util.find_line_number (E := MiniRe.engine) (Str "needle")
       ("stop" ++ LF ++ "start" ++ LF ++ "needle")%string
       (Some (Str "start")) (Some (Str "stop")) = Return (Some 3)
  /\ Util.find_line_in_code (E := MiniRe.engine) (P := MicroPy.parser)
       (Str "needle") ("stop" ++ LF ++ "start" ++ LF ++ "needle" ++ LF)%string
       (Some (Str "start")) (Some (Str "stop")) = Return (Some "needle").
Proof.
  split; [|split; reflexivity].
  intros E P needle stop ts pre post line Ws Ht.
  assert (S : forall guard,
             exists m, step needle ts (Some stop) guard false line
                       = Return (Next m)).
  { intros guard.
    destruct (well_formed_supplied ts line Ws) as [b Hb].
    exists (guard line && b).
    exact (step_disarmed needle ts (Some stop) guard line b true Hb Ht). }
  split.
  - intros contents L G.
    destruct (S nonblank) as [m Hm]; exists m; split; [exact Hm|].
    assert (G' : gate_after needle ts (Some stop) nonblank
                   (initial_gate ts) (pre ++ [line]) = Some m).
    { rewrite gate_after_app, G; simpl; rewrite Hm; reflexivity. }
    assert (R := find_line_number_resume needle ts (Some stop)
                   contents (pre ++ [line]) post _
                   ltac:(rewrite <- app_assoc; exact L) G').
    replace (Z.of_nat (length (pre ++ [line])) + 1)
      with (Z.of_nat (length pre) + 2) in R
      by (rewrite length_app; simpl; lia).
    split; exact R.
  - intros code tree T L G.
    destruct (S unquoted) as [m Hm]; exists m; split; [exact Hm|].
    assert (G' : gate_after needle ts (Some stop) unquoted
                   (initial_gate ts) (pre ++ [line]) = Some m).
    { rewrite gate_after_app, G; simpl; rewrite Hm; reflexivity. }
    assert (R := find_line_in_code_resume needle ts (Some stop)
                   code tree (pre ++ [line]) post _ T
                   ltac:(rewrite <- app_assoc; exact L) G').
    split; exact R.
Qed.

(** Line 1 of [stop], [start], [needle] matches the stop trigger with the
    gate disarmed: the call is the loop resumed at line 2, still
    disarmed. *)
Lemma C5_stop_trigger_ignored_while_disarmed_witness :
  exists m,
    step (E := MiniRe.engine) (Str "needle") (Some (Str "start"))
      (Some (Str "stop")) nonblank false "stop" = Return (Next m)
    /\ Util.find_line_number (E := MiniRe.engine) (Str "needle")
         ("stop" ++ LF ++ "start" ++ LF ++ "needle")%string
         (Some (Str "start")) (Some (Str "stop"))
       = Util.find_line_number_loop (E := MiniRe.engine) (Str "needle")
           (Some (Str "start")) (Some (Str "stop")) m
           (Py.enumerate ["start"; "needle"] 2).
Proof.
  destruct (proj1 (proj1 C5_stop_trigger_ignored_while_disarmed
                     MiniRe.engine MicroPy.parser
                     (Str "needle") (Str "stop") (Some (Str "start"))
                     [] ["start"; "needle"] "stop"
                     (ex_intro _ _ eq_refl) eq_refl)
              ("stop" ++ LF ++ "start" ++ LF ++ "needle")%string
              eq_refl eq_refl) as (m & Hstep & Hnum & _).
  exists m; split; [exact Hstep | exact Hnum].
Defined.

(** ** C6: a start trigger that never matches *)

(** A disarmed gate stays disarmed over lines the start trigger does not
    match, and the scan ends with [None]. *)
Lemma scan_never_armed {E : ReEngine} {A : Type} (needle : pattern)
    (ts te : option pattern) (guard : string -> bool)
    (found : Z -> string -> A) (n : Z) (lines : list string) :
  well_formed_opt te ->
  (forall l, In l lines -> supplied_and_matches ts l = Return false) ->
  scan needle ts te guard found false n lines = Return None.
Proof.
  intros We; revert n; induction lines as [|l rest IH]; intros n H; simpl;
    [reflexivity|].
  destruct (well_formed_supplied te l We) as [c Hc].
  rewrite (step_disarmed needle ts te guard l false c
             (H l (or_introl eq_refl)) Hc).
  rewrite andb_false_r; simpl.
  apply IH; intros l' Hin; apply H; right; exact Hin.
Qed.

(** A start trigger that fails to match some string is a true value: it is
    not the empty string, which matches everywhere. *)
Lemma unmatched_trigger_truthy {E : ReEngine} (p : pattern) (l : string) :
  re_match p l = Return false -> initial_gate (Some p) = false.
Proof.
  unfold initial_gate, truthy.
  destruct p as [[|c s]|r]; simpl; auto.
  unfold re_match; simpl; rewrite re_compile_empty; discriminate.
Qed.

(** C6: in both variants, when [trigger_start] is supplied and no line of
    the input matches it, the result is [None], whether or not lines match
    the needle ([trigger_stop], if supplied, being a pattern that compiles).
    For the contents ["a\nfoo\nb\nbar\n"], the start trigger [foo] and the
    needle [a] the result of [find_line_number] is [None]. *)
Theorem C6_unmatched_start_trigger {E : ReEngine} {P : PyParser}
    (needle start : pattern) (trigger_stop : option pattern) :
  well_formed_opt trigger_stop ->
  (forall contents,
     (forall l, In l (lines_of contents) -> re_match start l = Return false) ->
     Util.find_line_number needle contents (Some start) trigger_stop
     = Return None
     /\ CodeOperation.find_line_number needle contents (Some start)
          trigger_stop = Return None)
  /\ (forall code tree,
        ast_parse code = Return tree ->
        (forall l, In l (lines_of (unparse tree)) ->
                   re_match start l = Return false) ->
        Util.find_line_in_code needle code (Some start) trigger_stop
        = Return None
        /\ CodeOperation.find_line_in_code needle code (Some start)
             trigger_stop = Return None)
  /\ Util.find_line_number (E := MiniRe.engine) (Str "a")
       ("a" ++ LF ++ "foo" ++ LF ++ "b" ++ LF ++ "bar" ++ LF)%string
       (Some (Str "foo")) None = Return None
  /\ CodeOperation.find_line_number (E := MiniRe.engine) (Str "a")
       ("a" ++ LF ++ "foo" ++ LF ++ "b" ++ LF ++ "bar" ++ LF)%string
       (Some (Str "foo")) None = Return None.
Proof.
  intros We.
  assert (G : forall text,
             (forall l, In l (lines_of text) -> re_match start l = Return false)
             -> initial_gate (Some start) = false).
  { intros text H.
    destruct (lines_of text) as [|l0 rest] eqn:L.
    - exfalso; exact (split_not_nil _ _ L).
    - apply (unmatched_trigger_truthy start l0), H; left; reflexivity. }
  split; [|split; [|split; reflexivity]].
  - intros contents H.
    assert (R : Util.find_line_number needle contents (Some start)
                  trigger_stop = Return None).
    { rewrite find_line_number_scan, (G contents H).
      apply scan_never_armed; auto. }
    split; exact R.
  - intros code tree T H.
    assert (R : Util.find_line_in_code needle code (Some start)
                  trigger_stop = Return None).
    { rewrite find_line_in_code_scan, T; simpl; rewrite (G _ H).
      apply scan_never_armed; auto. }
    split; exact R.
Qed.

(** No line of [a], [needle], [b] matches the start trigger [zzz]: the
    result is [None] although line 2 matches the needle, in both
    variants. *)
Lemma C6_unmatched_start_trigger_witness :
  Util.find_line_number (E := MiniRe.engine) (Str "needle")
    ("a" ++ LF ++ "needle" ++ LF ++ "b")%string
    (Some (Str "zzz")) (Some (Str "b")) = Return None
  /\ Util.find_line_in_code (E := MiniRe.engine) (P := MicroPy.parser)
       (Str "needle") ("a" ++ LF ++ "needle" ++ LF ++ "b")%string
       (Some (Str "zzz")) (Some (Str "b")) = Return None.
Proof.
  destruct (C6_unmatched_start_trigger
              (E := MiniRe.engine) (P := MicroPy.parser)
              (Str "needle") (Str "zzz") (Some (Str "b"))
              (ex_intro _ _ eq_refl)) as (Hnum & Hcode & _).
  split.
  - refine (proj1 (Hnum ("a" ++ LF ++ "needle" ++ LF ++ "b")%string _)).
    intros l [<-|[<-|[<-|[]]]]; reflexivity.
  - refine (proj1 (Hcode ("a" ++ LF ++ "needle" ++ LF ++ "b")%string
                     [MicroPy.ExprName "a"; MicroPy.ExprName "needle";
                      MicroPy.ExprName "b"] eq_refl _)).
    intros l [<-|[<-|[<-|[<-|[<-|[]]]]]]; reflexivity.
Defined.

(** ** C7: no match is [None], not an error *)

(** C7: in both variants, for patterns that compile (and, for
    [find_line_in_code], a code that parses), if the needle matches no line
    that the scan reaches with the gate armed, that passes the guard and
    does not match [trigger_start], the call returns [None]: it does not
    raise.  In particular when the needle matches no line at all. *)
Theorem C7_no_match_returns_None {E : ReEngine} {P : PyParser}
    (needle : pattern) (trigger_start trigger_stop : option pattern) :
  well_formed needle ->
  well_formed_opt trigger_start ->
  well_formed_opt trigger_stop ->
  (forall contents,
     (forall pre line post,
        lines_of contents = pre ++ line :: post ->
        gate_after needle trigger_start trigger_stop nonblank
          (initial_gate trigger_start) pre = Some true ->
        nonblank line = true ->
        supplied_and_matches trigger_start line = Return false ->
        re_match needle line = Return false) ->
     Util.find_line_number needle contents trigger_start trigger_stop
     = Return None
     /\ CodeOperation.find_line_number needle contents trigger_start
          trigger_stop = Return None)
  /\ (forall code tree,
        ast_parse code = Return tree ->
        (forall pre line post,
           lines_of (unparse tree) = pre ++ line :: post ->
           gate_after needle trigger_start trigger_stop unquoted
             (initial_gate trigger_start) pre = Some true ->
           unquoted line = true ->
           supplied_and_matches trigger_start line = Return false ->
           re_match needle line = Return false) ->
        Util.find_line_in_code needle code trigger_start trigger_stop
        = Return None
        /\ CodeOperation.find_line_in_code needle code trigger_start
             trigger_stop = Return None)
  /\ (forall contents,
        (forall l, In l (lines_of contents) ->
                   re_match needle l = Return false) ->
        Util.find_line_number needle contents trigger_start trigger_stop
        = Return None)
  /\ (forall code tree,
        ast_parse code = Return tree ->
        (forall l, In l (lines_of (unparse tree)) ->
                   re_match needle l = Return false) ->
        Util.find_line_in_code needle code trigger_start trigger_stop
        = Return None).
Proof.
  intros Wn Ws We.
  assert (K : forall (A : Type) guard (found : Z -> string -> A) lines,
             (forall pre line post,
                lines = pre ++ line :: post ->
                gate_after needle trigger_start trigger_stop guard
                  (initial_gate trigger_start) pre = Some true ->
                guard line = true ->
                supplied_and_matches trigger_start line = Return false ->
                re_match needle line = Return false) ->
             scan needle trigger_start trigger_stop guard found
               (initial_gate trigger_start) 1 lines = Return None).
  { intros A guard found lines H.
    destruct (scan_total needle trigger_start trigger_stop guard found
                (initial_gate trigger_start) 1 lines Wn Ws We) as [[x|] R];
      [|exact R].
    exfalso.
    destruct (scan_Some_inv _ _ _ _ _ _ _ _ _ R)
      as (pre & l & post & m' & L & G & F & _).
    apply step_inv in F; simpl in F; destruct F as (Hg & -> & Hs & Hn).
    rewrite (H pre l post L G Hg Hs) in Hn; discriminate. }
  assert (Knum : forall contents,
             (forall pre line post,
                lines_of contents = pre ++ line :: post ->
                gate_after needle trigger_start trigger_stop nonblank
                  (initial_gate trigger_start) pre = Some true ->
                nonblank line = true ->
                supplied_and_matches trigger_start line = Return false ->
                re_match needle line = Return false) ->
             Util.find_line_number needle contents trigger_start trigger_stop
             = Return None).
  { intros contents H; rewrite find_line_number_scan; apply K; exact H. }
  assert (Kcode : forall code tree,
             ast_parse code = Return tree ->
             (forall pre line post,
                lines_of (unparse tree) = pre ++ line :: post ->
                gate_after needle trigger_start trigger_stop unquoted
                  (initial_gate trigger_start) pre = Some true ->
                unquoted line = true ->
                supplied_and_matches trigger_start line = Return false ->
                re_match needle line = Return false) ->
             Util.find_line_in_code needle code trigger_start trigger_stop
             = Return None).
  { intros code tree T H; rewrite find_line_in_code_scan, T; simpl.
    apply K; exact H. }
  split; [|split; [|split]].
  - intros contents H; split; exact (Knum contents H).
  - intros code tree T H; split; exact (Kcode code tree T H).
  - intros contents H; apply Knum.
    intros pre l post L _ _ _; apply H; rewrite L.
    apply in_or_app; right; left; reflexivity.
  - intros code tree T H; apply (Kcode code tree T).
    intros pre l post L _ _ _; apply H; rewrite L.
    apply in_or_app; right; left; reflexivity.
Qed.

(** The needle [zzz] matches no line of [a], [b], [c]: both variants
    return [None]. *)
Lemma C7_no_match_returns_None_witness :
  Util.find_line_number (E := MiniRe.engine) (Str "zzz")
    ("a" ++ LF ++ "b" ++ LF ++ "c")%string
    (Some (Str "a")) (Some (Str "c")) = Return None
  /\ Util.find_line_in_code (E := MiniRe.engine) (P := MicroPy.parser)
       (Str "zzz") ("a" ++ LF ++ "b" ++ LF ++ "c")%string
       (Some (Str "a")) (Some (Str "c")) = Return None.
Proof.
  destruct (C7_no_match_returns_None
              (E := MiniRe.engine) (P := MicroPy.parser)
              (Str "zzz") (Some (Str "a")) (Some (Str "c"))
              (ex_intro _ _ eq_refl) (ex_intro _ _ eq_refl)
              (ex_intro _ _ eq_refl)) as (_ & _ & Hnum & Hcode).
  split.
  - refine (Hnum ("a" ++ LF ++ "b" ++ LF ++ "c")%string _).
    intros l [<-|[<-|[<-|[]]]]; reflexivity.
  - refine (Hcode ("a" ++ LF ++ "b" ++ LF ++ "c")%string
              [MicroPy.ExprName "a"; MicroPy.ExprName "b";
               MicroPy.ExprName "c"] eq_refl _).
    intros l [<-|[<-|[<-|[<-|[<-|[]]]]]]; reflexivity.
Defined.

(** ** C8: a parse failure propagates *)

(** C8: when [ast.parse] raises on [code], be it [SyntaxError] or another
    exception, [find_line_in_code] raises the same exception; its result is
    not [None], nor any other value. *)
Theorem C8_parse_failure_propagates {E : ReEngine} {P : PyParser}
    (needle : pattern) (trigger_start trigger_stop : option pattern)
    (code : string) (e : exn) :
  ast_parse code = Raise e ->
  Util.find_line_in_code needle code trigger_start trigger_stop = Raise e
  /\ CodeOperation.find_line_in_code needle code trigger_start trigger_stop
     = Raise e
  /\ (forall v,
        Util.find_line_in_code needle code trigger_start trigger_stop
        <> Return v).
Proof.
  intros H.
  assert (R : Util.find_line_in_code needle code trigger_start trigger_stop
              = Raise e).
  { unfold Util.find_line_in_code; rewrite H; reflexivity. }
  split; [exact R|]. split; [exact R|].
  intros v; rewrite R; discriminate.
Qed.

(** A string literal that is not closed is a [SyntaxError] of the parser,
    and of [find_line_in_code]. *)
Lemma C8_parse_failure_propagates_witness :
  Util.find_line_in_code (E := MiniRe.engine) (P := MicroPy.parser)
    (Str "pass") ("'doc" ++ LF ++ "pass")%string None None
  = Raise SyntaxError.
Proof.
  exact (proj1 (C8_parse_failure_propagates
                  (E := MiniRe.engine) (P := MicroPy.parser)
                  (Str "pass") None None ("'doc" ++ LF ++ "pass")%string
                  SyntaxError eq_refl)).
Defined.

(** ** C9: what [find_line_in_code] returns *)

(** The guard of [find_line_in_code] rejects exactly the lines whose first
    character after the leading whitespace is a quote. *)
Lemma unquoted_false_iff (line : string) :
  unquoted line = false
  <-> exists c r, Py.lstrip line = String c r
                  /\ (c = "'"%char \/ c = ascii_of_nat 34).
Proof.
  unfold unquoted, Py.slice_to.
  destruct (Py.lstrip line) as [|c r]; simpl.
  - split; [discriminate | intros (c & r & H & _); discriminate].
  - replace (substring 0 0 r) with EmptyString by (destruct r; reflexivity).
    split.
    + intros H; exists c, r; split; [reflexivity|].
      destruct (Ascii.eqb_spec c "'"%char) as [->|N1]; [left; reflexivity|].
      destruct (Ascii.eqb_spec c (ascii_of_nat 34)) as [->|N2];
        [right; reflexivity|].
      exfalso; revert H; unfold Py.str_in, Py.dquote; simpl.
      destruct (Ascii.eqb_spec c "'"%char); [contradiction|].
      destruct (Ascii.eqb_spec c (ascii_of_nat 34)); [contradiction|].
      discriminate.
    + intros (c' & r' & H & [->| ->]); injection H as -> _; reflexivity.
Qed.

(** C9: a text returned by [find_line_in_code] is the stripped form of a
    line of the unparsed code that passed the guard: both strips leave it
    as it is, its first character, if any, is neither whitespace nor a
    single or double quote, and its last character is not whitespace.  A
    line whose first character after the leading whitespace is a quote is
    skipped: its step is [Next] with the gate unchanged, so it is never
    returned. *)
Theorem C9_returned_text_is_stripped_and_unquoted
    {E : ReEngine} {P : PyParser}
    (needle : pattern) (trigger_start trigger_stop : option pattern)
    (code text : string) :
  Util.find_line_in_code needle code trigger_start trigger_stop
  = Return (Some text) ->
  Py.lstrip text = text
  /\ Py.rstrip text = text
  /\ (forall c r,
        text = String c r ->
        Py.isspace c = false /\ c <> "'"%char /\ c <> ascii_of_nat 34)
  /\ (forall s c,
        text = (s ++ String c EmptyString)%string -> Py.isspace c = false)
  /\ (exists tree pre line post,
        ast_parse code = Return tree
        /\ lines_of (unparse tree) = pre ++ line :: post
        /\ unquoted line = true
        /\ text = Py.strip line)
  /\ (forall m line c r,
        Py.lstrip line = String c r ->
        c = "'"%char \/ c = ascii_of_nat 34 ->
        step needle trigger_start trigger_stop unquoted m line
        = Return (Next m))
  /\ CodeOperation.find_line_in_code needle code trigger_start trigger_stop
     = Return (Some text).
Proof.
  intros H.
  assert (H' := H).
  rewrite find_line_in_code_scan in H'.
  destruct (ast_parse code) as [tree|e] eqn:T; simpl in H'; [|discriminate].
  apply scan_Some_inv in H'.
  destruct H' as (pre & l & post & m' & L & G & F & ->).
  apply step_inv in F; simpl in F; destruct F as (Hg & _).
  split; [apply lstrip_strip|]. split; [apply rstrip_strip|].
  split; [|split; [|split; [|split]]].
  - intros c r Hs.
    destruct (strip_first _ _ _ Hs) as [W _].
    destruct (unquoted_strip_first _ _ _ Hg Hs) as [N1 N2]; auto.
  - intros s c Hs; exact (strip_last _ _ _ Hs).
  - exists tree, pre, l, post; auto.
  - intros m line c r Hl Hc.
    apply step_skipped, unquoted_false_iff; eauto.
  - exact H.
Qed.

(** The docstring line of a module is skipped although it matches the
    needle; the returned text is the name on the next line. *)
Lemma C9_returned_text_is_stripped_and_unquoted_witness :
  Util.find_line_in_code (E := MiniRe.engine) (P := MicroPy.parser)
    (Str ".") ("'quoted'" ++ LF ++ "plain")%string None None
  = Return (Some "plain")
  /\ Py.lstrip "plain" = "plain"
  /\ Py.rstrip "plain" = "plain"
  /\ step (E := MiniRe.engine) (Str ".") None None unquoted true "'quoted'"
     = Return (Next true).
Proof.
  assert (H : Util.find_line_in_code
                (E := MiniRe.engine) (P := MicroPy.parser)
                (Str ".") ("'quoted'" ++ LF ++ "plain")%string None None
              = Return (Some "plain")) by reflexivity.
  destruct (C9_returned_text_is_stripped_and_unquoted
              (E := MiniRe.engine) (P := MicroPy.parser)
              (Str ".") None None _ _ H)
    as (Hl & Hr & _ & _ & _ & Hskip & _).
  split; [exact H|]. split; [exact Hl|]. split; [exact Hr|].
  exact (Hskip true "'quoted'" "'"%char "quoted'" eq_refl
           (or_introl eq_refl)).
Defined.

(** ** C10: the needle test comes before the stop test *)

(** C10, as stated, fails on a line that the guard of the loop skips.  With
    no start trigger the gate is armed; the only line of the contents, two
    spaces, matches the needle and the stop trigger, both one space; it is
    blank, so [find_line_number] skips it and returns [None], not 1.  In
    [find_line_in_code] the line of a string statement matches the needle
    and the stop trigger, both a single quote; it starts with a quote, so it
    is skipped and the result is [None]. *)
Lemma C10_skipped_line_is_not_returned :
  let needle : pattern (E := MiniRe.engine) := Str " " in
  let trigger_stop := Some (Str " ") in
  initial_gate (E := MiniRe.engine) None = true
  /\ lines_of "  " = ["  "]
  /\ re_match needle "  " = Return true
  /\ supplied_and_matches trigger_stop "  " = Return true
  /\ Util.find_line_number needle "  " None trigger_stop = Return None
  /\ Util.find_line_number needle "  " None trigger_stop <> Return (Some 1)
  /\ (t <- ast_parse (PyParser := MicroPy.parser) "'x'" ;;
      Return (lines_of (unparse t)))
     = Return [EmptyString; "'x'"; EmptyString]
  /\ re_match (E := MiniRe.engine) (Str "'") "'x'" = Return true
  /\ Util.find_line_in_code (E := MiniRe.engine) (P := MicroPy.parser)
       (Str "'") "'x'" None (Some (Str "'")) = Return None.
Proof.
  cbv zeta; repeat split; try reflexivity; discriminate.
Qed.

(** C10, amended: in both variants, a line that the scan reaches with the
    gate armed, that is not skipped by the guard of the loop (blank, or
    starting with a quote), does not match [trigger_start] and matches both
    the needle and [trigger_stop], is returned (its number, or its stripped
    text): the result is not [None]. *)
Theorem C10_needle_before_stop {E : ReEngine} {P : PyParser}
    (needle stop : pattern) (trigger_start : option pattern)
    (pre post : list string) (line : string) :
  supplied_and_matches trigger_start line = Return false ->
  re_match needle line = Return true ->
  re_match stop line = Return true ->
  (forall contents,
     lines_of contents = pre ++ line :: post ->
     nonblank line = true ->
     gate_after needle trigger_start (Some stop) nonblank
       (initial_gate trigger_start) pre = Some true ->
     Util.find_line_number needle contents trigger_start (Some stop)
     = Return (Some (Z.of_nat (length pre) + 1))
     /\ CodeOperation.find_line_number needle contents trigger_start
          (Some stop)
        = Return (Some (Z.of_nat (length pre) + 1)))
  /\ (forall code tree,
        ast_parse code = Return tree ->
        lines_of (unparse tree) = pre ++ line :: post ->
        unquoted line = true ->
        gate_after needle trigger_start (Some stop) unquoted
          (initial_gate trigger_start) pre = Some true ->
        Util.find_line_in_code needle code trigger_start (Some stop)
        = Return (Some (Py.strip line))
        /\ CodeOperation.find_line_in_code needle code trigger_start
             (Some stop)
           = Return (Some (Py.strip line))).
Proof.
  intros Hs Hn _; split.
  - intros contents L Hg G.
    assert (R : Util.find_line_number needle contents trigger_start
                  (Some stop)
                = Return (Some (Z.of_nat (length pre) + 1))).
    { rewrite find_line_number_scan, L.
      rewrite (scan_Found _ _ _ _ _ _ _ _ _ _ _ G
                 (step_found _ _ _ _ _ Hg Hs Hn)).
      do 2 f_equal; lia. }
    split; exact R.
  - intros code tree T L Hg G.
    assert (R : Util.find_line_in_code needle code trigger_start
                  (Some stop)
                = Return (Some (Py.strip line))).
    { rewrite find_line_in_code_scan, T; simpl; rewrite L.
      exact (scan_Found _ _ _ _ _ _ _ _ _ _ _ G
               (step_found _ _ _ _ _ Hg Hs Hn)). }
    split; exact R.
Qed.

(** Line 2 of [start], [stopper] matches the needle [stop] and the stop
    trigger [stopper]: it is returned, by number and by text. *)
Lemma C10_needle_before_stop_witness :
  Util.find_line_number (E := MiniRe.engine) (Str "stop")
    ("start" ++ LF ++ "stopper")%string
    (Some (Str "start")) (Some (Str "stopper")) = Return (Some 2)
  /\ Util.find_line_in_code (E := MiniRe.engine) (P := MicroPy.parser)
       (Str "stop") ("start" ++ LF ++ "stopper")%string
       (Some (Str "start")) (Some (Str "stopper"))
     = Return (Some "stopper").
Proof.
  split.
  - exact (proj1 (proj1 (C10_needle_before_stop
                           (E := MiniRe.engine) (P := MicroPy.parser)
                           (Str "stop") (Str "stopper") (Some (Str "start"))
                           ["start"] [] "stopper"
                           eq_refl eq_refl eq_refl)
                    ("start" ++ LF ++ "stopper")%string
                    eq_refl eq_refl eq_refl)).
  - exact (proj1 (proj2 (C10_needle_before_stop
                           (E := MiniRe.engine) (P := MicroPy.parser)
                           (Str "stop") (Str "stopper") (Some (Str "start"))
                           [EmptyString; "start"] [EmptyString] "stopper"
                           eq_refl eq_refl eq_refl)
                    ("start" ++ LF ++ "stopper")%string
                    [MicroPy.ExprName "start"; MicroPy.ExprName "stopper"]
                    eq_refl eq_refl eq_refl eq_refl)).
Defined.


(** * Further properties of the locator *)

(** ** An empty start trigger *)



(** ** The range of the result *)

(** X2: a line number returned by [find_line_number] is at least 1 and at
    most the number of lines of the contents, which is one more than the
    number of line feeds in it. *)
Theorem X2_line_number_in_range {E : ReEngine} (needle : pattern)
    (trigger_start trigger_stop : option pattern) (contents : string)
    (n : Z) :
  Util.find_line_number needle contents trigger_start trigger_stop
  = Return (Some n) ->
  1 <= n <= Z.of_nat (length (lines_of contents))
  /\ length (lines_of contents)
     = S (length (filter (fun c => Ascii.eqb c Py.nl)
                    (list_ascii_of_string contents))).
Proof.
  intros H; split.
  - rewrite find_line_number_scan in H.
    apply scan_Some_inv in H.
    destruct H as (pre & l & post & m' & L & _ & _ & ->).
    rewrite L, length_app; cbn [length]; cbv beta; lia.
  - clear H; unfold lines_of.
    induction contents as [|c r IH]; [reflexivity|].
    cbn [Py.split list_ascii_of_string filter].
    destruct (Ascii.eqb c Py.nl); cbn [length].
    + rewrite IH; reflexivity.
    + destruct (Py.split Py.nl r) eqn:S; cbn [length] in *; [discriminate|].
      exact IH.
Qed.

Lemma X2_line_number_in_range_witness :
  1 <= 4 <= Z.of_nat (length (lines_of
             ("a" ++ LF ++ "foo" ++ LF ++ "b" ++ LF ++ "bar" ++ LF)%string))
  /\ length (lines_of
               ("a" ++ LF ++ "foo" ++ LF ++ "b" ++ LF ++ "bar" ++ LF)%string)
     = 5%nat.
Proof.
  exact (X2_line_number_in_range (E := MiniRe.engine) (Str "bar") None None
           ("a" ++ LF ++ "foo" ++ LF ++ "b" ++ LF ++ "bar" ++ LF)%string 4
           eq_refl).
Defined.

(** ** Text after the match *)

Lemma split_app_sep (sep : ascii) (a b : string) :
  Py.split sep (a ++ String sep b)%string = Py.split sep a ++ Py.split sep b.
Proof.
  induction a as [|c r IH]; simpl.
  - rewrite Ascii.eqb_refl; reflexivity.
  - destruct (Ascii.eqb c sep); [rewrite IH; reflexivity|].
    rewrite IH.
    destruct (Py.split sep r) as [|h t] eqn:S; [|reflexivity].
    exfalso; exact (split_not_nil _ _ S).
Qed.

(** X3: what follows the returned line has no part in the result: when
    [find_line_number] returns a line number for [contents], it returns the
    same number for [contents] followed by a line feed and any further
    text. *)
Theorem X3_later_text_is_not_read {E : ReEngine} (needle : pattern)
    (trigger_start trigger_stop : option pattern) (contents more : string)
    (n : Z) :
  Util.find_line_number needle contents trigger_start trigger_stop
  = Return (Some n) ->
  Util.find_line_number needle (contents ++ LF ++ more)%string
    trigger_start trigger_stop = Return (Some n).
Proof.
  rewrite !find_line_number_scan; intros H.
  apply scan_Some_inv in H.
  destruct H as (pre & l & post & m' & L & G & F & ->).
  assert (L' : lines_of (contents ++ LF ++ more)%string
               = pre ++ l :: (post ++ lines_of more)).
  { unfold lines_of, LF in *.
    change (String Py.nl EmptyString ++ more)%string with (String Py.nl more).
    rewrite split_app_sep, L, <- app_assoc; reflexivity. }
  rewrite L'.
  exact (scan_Found needle trigger_start trigger_stop nonblank
           (fun k _ => k) _ _ 1 pre _ l G F).
Qed.

Lemma X3_later_text_is_not_read_witness :
  Util.find_line_number (E := MiniRe.engine) (Str "bar")
    (("a" ++ LF ++ "bar") ++ LF ++ "bar" ++ LF ++ "zzz")%string
    None (Some (Str "zzz")) = Return (Some 2).
Proof.
  exact (X3_later_text_is_not_read (E := MiniRe.engine) (Str "bar") None
           (Some (Str "zzz")) ("a" ++ LF ++ "bar")%string
           ("bar" ++ LF ++ "zzz")%string 2 eq_refl).
Defined.

(** ** Where an exception comes from *)







(** * [flatten_list] *)

Section Flatten.
Variable A : Type.

(** Induction on a value, with the induction hypothesis for every item of a
    list. *)
Lemma value_induction (Q : value A -> Prop) :
  (forall a, Q (Item a)) ->
  (forall items, Forall Q items -> Q (PyList items)) ->
  forall v, Q v.
Proof.
  intros HI HL.
  fix IH 1; intros [a|items]; [apply HI|].
  apply HL; induction items as [|x r IHr]; constructor; [apply IH | exact IHr].
Qed.

Lemma flattened_flat (v : value A) :
  Forall (fun x => is_list x = false) (flattened v).
Proof.
  induction v as [a|items IH] using value_induction; simpl.
  - constructor; [reflexivity | constructor].
  - induction IH as [|x r Hx _ IHr]; simpl; [constructor|].
    apply Forall_app; split; assumption.
Qed.

Lemma flatten_list_result_flat (lst : list (value A)) :
  Forall (fun x => is_list x = false) (flatten_list lst).
Proof.
  unfold flatten_list; induction lst as [|x r IH]; simpl; [constructor|].
  apply Forall_app; split; [apply flattened_flat | exact IH].
Qed.

(** X5: the result of [flatten_list] holds no list, however deep the
    lists of the argument are nested, and it has the items of the argument
    that are no lists in their places: an empty list among the items
    leaves nothing, an item that is no list is kept. *)
Theorem X5_flatten_list_result_is_flat (lst : list (value A)) (a : A) :
  Forall (fun x => is_list x = false) (flatten_list lst)
  /\ flatten_list (PyList [] :: lst) = flatten_list lst
  /\ flatten_list (Item a :: lst) = Item a :: flatten_list lst.
Proof.
  split; [apply flatten_list_result_flat|].
  split; reflexivity.
Qed.

Lemma flatten_list_flat (lst : list (value A)) :
  Forall (fun x => is_list x = false) lst -> flatten_list lst = lst.
Proof.
  unfold flatten_list; induction 1 as [|x r Hx _ IH]; simpl; [reflexivity|].
  destruct x as [a|items]; [|discriminate].
  simpl; rewrite IH; reflexivity.
Qed.

(** X6: a list without a list among its items is returned as it is, items
    and order; so flattening twice is flattening once. *)
Theorem X6_flatten_list_idempotent (lst : list (value A)) :
  (Forall (fun x => is_list x = false) lst -> flatten_list lst = lst)
  /\ flatten_list (flatten_list lst) = flatten_list lst.
Proof.
  split; [apply flatten_list_flat|].
  apply flatten_list_flat, flatten_list_result_flat.
Qed.

(** X7: only the items and their order count, not the brackets around
    them: a list among the items can be replaced by its items, and the
    result for a concatenation is the concatenation of the results. *)
Theorem X7_flatten_list_ignores_nesting (before inner after : list (value A)) :
  flatten_list (before ++ PyList inner :: after)
  = flatten_list (before ++ inner ++ after)
  /\ flatten_list (before ++ after)
     = flatten_list before ++ flatten_list after
  /\ flatten_list [PyList inner] = flatten_list inner.
Proof.
  unfold flatten_list; repeat split.
  - rewrite !flat_map_app; simpl; reflexivity.
  - apply flat_map_app.
  - simpl; apply app_nil_r.
Qed.

End Flatten.

(** [[1, [2, [3, []]], 4]] is flat already after one call. *)
Lemma X6_flatten_list_idempotent_witness :
  flatten_list [Item 1; Item 2; Item 3; Item 4]
  = [Item 1; Item 2; Item 3; Item 4]
  /\ flatten_list
       [Item 1; PyList [Item 2; PyList [Item 3; PyList []]]; Item 4]
     = [Item 1; Item 2; Item 3; Item 4].
Proof.
  split; [|reflexivity].
  apply (proj1 (X6_flatten_list_idempotent Z
                  [Item 1; Item 2; Item 3; Item 4])).
  repeat constructor.
Defined.

(** * [remove_none] *)

Section RemoveNone.
Variables K V : Type.
Variable eqb : K -> K -> bool.
Hypothesis eqb_spec : forall a b, eqb a b = true <-> a = b.

Lemma dict_set_new (d : dict K V) (k : K) (v : option V) :
  ~ In k (map fst d) -> dict_set eqb d k v = d ++ [(k, v)].
Proof.
  induction d as [|[k' v'] r IH]; simpl; [reflexivity|].
  intros N.
  destruct (eqb k' k) eqn:Q.
  - exfalso; apply N; left; apply eqb_spec; exact Q.
  - rewrite IH; [reflexivity|]. intros H; apply N; right; exact H.
Qed.

Lemma remove_none_fold (d acc : dict K V) :
  NoDup (map fst (acc ++ d)) ->
  fold_left
    (fun acc kv =>
       match snd kv with
       | Some _ => dict_set eqb acc (fst kv) (snd kv)
       | None => acc
       end) d acc
  = acc ++ filter is_not_None d.
Proof.
  revert acc; induction d as [|[k v] r IH]; intros acc N; simpl.
  - symmetry; apply app_nil_r.
  - unfold is_not_None at 1; simpl.
    destruct v as [x|].
    + rewrite dict_set_new.
      * rewrite IH; [rewrite <- app_assoc; reflexivity|].
        rewrite <- app_assoc; exact N.
      * rewrite map_app in N; simpl in N.
        apply NoDup_remove_2 in N.
        intros H; apply N, in_or_app; left; exact H.
    + apply IH.
      rewrite map_app in *; simpl in N.
      apply NoDup_remove_1 in N; exact N.
Qed.

Lemma remove_none_filter (d : dict K V) :
  NoDup (map fst d) -> remove_none eqb d = filter is_not_None d.
Proof. intros N; exact (remove_none_fold d [] N). Qed.

Lemma filter_keys_NoDup (d : dict K V) :
  NoDup (map fst d) -> NoDup (map fst (filter is_not_None d)).
Proof.
  induction d as [|[k v] r IH]; simpl; [auto|].
  intros N; inversion N as [|? ? Hk Hr]; subst.
  destruct (is_not_None (k, v)); simpl; [|auto].
  constructor; [|auto].
  intros H; apply Hk.
  apply in_map_iff in H; destruct H as (kv & <- & Hin).
  apply filter_In in Hin; apply in_map, Hin.
Qed.

(** X8: for a dict, whose keys are distinct, [remove_none] keeps exactly
    the items whose value is not [None], in their order; no value of the
    result is [None], and removing again changes nothing. *)
Theorem X8_remove_none_keeps_the_other_items (d : dict K V) :
  NoDup (map fst d) ->
  remove_none eqb d = filter is_not_None d
  /\ Forall (fun kv => snd kv <> None) (remove_none eqb d)
  /\ remove_none eqb (remove_none eqb d) = remove_none eqb d.
Proof.
  intros N; rewrite (remove_none_filter d N).
  split; [reflexivity|]. split.
  - apply Forall_forall; intros [k v] H.
    apply filter_In in H; destruct H as [_ H].
    unfold is_not_None in H; simpl in *; destruct v; [discriminate|].
    discriminate.
  - rewrite remove_none_filter by (apply filter_keys_NoDup; exact N).
    induction d as [|kv r IH]; simpl; [reflexivity|].
    inversion N; subst.
    destruct (is_not_None kv) eqn:Q; simpl; [rewrite Q, IH; auto | auto].
Qed.

(** X9: looking a key up after [remove_none]: a key whose value was not
    [None] has the same value, a key whose value was [None] is missing like
    a key that was never there. *)
Theorem X9_remove_none_lookup (d : dict K V) (k : K) :
  NoDup (map fst d) ->
  dict_get eqb (remove_none eqb d) k
  = match dict_get eqb d k with
    | Some (Some v) => Some (Some v)
    | Some None | None => None
    end.
Proof.
  intros N; rewrite (remove_none_filter d N).
  induction d as [|[k' v'] r IH]; simpl; [reflexivity|].
  inversion N as [|? ? Hk Hr]; subst.
  unfold is_not_None at 1; simpl.
  destruct (eqb k' k) eqn:Q.
  - apply eqb_spec in Q; subst k'.
    destruct v' as [x|]; simpl.
    + destruct (eqb k k) eqn:R; [reflexivity|].
      assert (T : eqb k k = true) by (apply eqb_spec; reflexivity).
      congruence.
    + (* the key does not occur further on *)
      clear IH N.
      induction r as [|[k2 v2] r IHr]; simpl; [reflexivity|].
      assert (D : eqb k2 k = false).
      { destruct (eqb k2 k) eqn:R; [|reflexivity].
        apply eqb_spec in R; subst k2.
        exfalso; apply Hk; left; reflexivity. }
      inversion Hr; subst.
      destruct (is_not_None (k2, v2)); simpl; [rewrite D|];
        apply IHr; auto; intros H; apply Hk; right; exact H.
  - destruct v' as [x|]; simpl; [rewrite Q|]; apply IH; exact Hr.
Qed.

End RemoveNone.

Lemma X8_remove_none_keeps_the_other_items_witness :
  remove_none String.eqb [("a", Some 1); ("b", None); ("c", Some 3)]
  = [("a", Some 1); ("c", Some 3)]
  /\ remove_none String.eqb
       (remove_none String.eqb [("a", Some 1); ("b", None); ("c", Some 3)])
     = remove_none String.eqb [("a", Some 1); ("b", None); ("c", Some 3)].
Proof.
  destruct (X8_remove_none_keeps_the_other_items string Z String.eqb
              String.eqb_eq [("a", Some 1); ("b", None); ("c", Some 3)])
    as (Hf & _ & Hi).
  - repeat constructor; simpl; intuition discriminate.
  - split; [exact Hf | exact Hi].
Defined.

Lemma X9_remove_none_lookup_witness :
  dict_get String.eqb
    (remove_none String.eqb [("a", Some 1); ("b", None); ("c", Some 3)]) "b"
  = None
  /\ dict_get String.eqb
       (remove_none String.eqb [("a", Some 1); ("b", None); ("c", Some 3)])
       "c"
     = Some (Some 3).
Proof.
  assert (N : NoDup (map fst [("a", Some 1); ("b", @None Z);
                              ("c", Some 3)]))
    by (repeat constructor; simpl; intuition discriminate).
  split.
  - exact (X9_remove_none_lookup string Z String.eqb String.eqb_eq
             _ "b" N).
  - exact (X9_remove_none_lookup string Z String.eqb String.eqb_eq
             _ "c" N).
Defined.

(** * [printable_cred] *)

Section Slices.
Local Open Scope string_scope.

Lemma length_append (a b : string) :
  String.length (a ++ b) = (String.length a + String.length b)%nat.
Proof. induction a as [|c r IH]; simpl; [reflexivity | rewrite IH; auto]. Qed.

Lemma append_assoc (a b c : string) : (a ++ b) ++ c = a ++ b ++ c.
Proof. induction a as [|x r IH]; simpl; [reflexivity | rewrite IH; auto]. Qed.

Lemma take_drop (n : nat) (s : string) : PyStr.take n s ++ PyStr.drop n s = s.
Proof.
  revert s; induction n as [|k IH]; intros [|c r]; simpl; try reflexivity.
  rewrite IH; reflexivity.
Qed.

Lemma length_take (n : nat) (s : string) :
  (n <= String.length s)%nat -> String.length (PyStr.take n s) = n.
Proof.
  revert s; induction n as [|k IH]; intros [|c r]; simpl; try reflexivity;
    [lia|].
  intros H; rewrite IH; [reflexivity | lia].
Qed.

Lemma length_drop (n : nat) (s : string) :
  String.length (PyStr.drop n s) = (String.length s - n)%nat.
Proof.
  revert s; induction n as [|k IH]; intros [|c r]; simpl; try reflexivity.
  apply IH.
Qed.

Lemma take_app (a b : string) : PyStr.take (String.length a) (a ++ b) = a.
Proof. induction a as [|c r IH]; simpl; [destruct b|rewrite IH]; auto. Qed.

Lemma drop_app (a b : string) : PyStr.drop (String.length a) (a ++ b) = b.
Proof. induction a as [|c r IH]; simpl; [destruct b|]; auto. Qed.

Lemma length_times (s : string) (n : nat) :
  String.length (PyStr.times s n) = (n * String.length s)%nat.
Proof.
  induction n as [|k IH]; simpl; [reflexivity|].
  rewrite length_append, IH; reflexivity.
Qed.

End Slices.

Section PrintableCred.
Variable O : Type.

(** The masked form, for a credential long enough: its first and last
    [v] characters around the mask. *)
Lemma printable_cred_masked (s mask_char : string)
    (visible mask_char_count : Z) :
  let v := Z.to_nat (Z.max visible 1) in
  let mask := if Py.truthy mask_char then mask_char else "*" in
  PyStr.len s >= Z.max visible 1 * 2 ->
  printable_cred (O := O) (inl s) visible mask_char mask_char_count
  = inl (PyStr.take v s ++ PyStr.mul mask mask_char_count
         ++ PyStr.drop (String.length s - v) s)%string.
Proof.
  intros v mask H; unfold printable_cred.
  destruct (PyStr.len s >=? Z.max visible 1 * 2) eqn:Q; [|lia].
  unfold PyStr.slice_upto, PyStr.slice_from, PyStr.bound, PyStr.len in *.
  destruct (Z.max visible 1 <? 0) eqn:Q1; [lia|].
  destruct (- Z.max visible 1 <? 0) eqn:Q2; [|lia].
  replace (Z.to_nat (Z.min (Z.max visible 1) (Z.of_nat (String.length s))))
    with v by (unfold v; lia).
  replace (Z.to_nat (Z.max (Z.of_nat (String.length s)
                            + - Z.max visible 1) 0))
    with (String.length s - v)%nat by (unfold v; lia).
  reflexivity.
Qed.

Lemma printable_cred_short (s mask_char : string)
    (visible mask_char_count : Z) :
  PyStr.len s < Z.max visible 1 * 2 ->
  printable_cred (O := O) (inl s) visible mask_char mask_char_count = inl s.
Proof.
  intros H; unfold printable_cred.
  destruct (PyStr.len s >=? Z.max visible 1 * 2) eqn:Q; [lia | reflexivity].
Qed.

(** X10: what [printable_cred] shows of a string.  With [v] the larger of
    [visible] and 1: a credential of at least [2 * v] characters is cut in
    its first [v] characters, a middle and its last [v] characters, and the
    result is the first and the last part around the mask; the middle, of
    [len(cred) - 2 * v] characters, is all that is hidden, and it is empty
    for a credential of exactly [2 * v] characters.  A credential of fewer
    than [2 * v] characters, and a value that is no string, is returned as
    it is, unmasked. *)
Theorem X10_printable_cred_reveals_both_ends (s mask_char : string)
    (visible mask_char_count : Z) (o : O) :
  let v := Z.max visible 1 in
  let mask := if Py.truthy mask_char then mask_char else "*" in
  (PyStr.len s >= v * 2 ->
   exists first middle last,
     s = (first ++ middle ++ last)%string
     /\ PyStr.len first = v
     /\ PyStr.len last = v
     /\ PyStr.len middle = PyStr.len s - 2 * v
     /\ printable_cred (O := O) (inl s) visible mask_char mask_char_count
        = inl (first ++ PyStr.mul mask mask_char_count ++ last)%string)
  /\ (PyStr.len s < v * 2 ->
      printable_cred (O := O) (inl s) visible mask_char mask_char_count
      = inl s)
  /\ printable_cred (inr o) visible mask_char mask_char_count = inr o.
Proof.
  intros v mask; split; [|split; [apply printable_cred_short | reflexivity]].
  intros H.
  set (n := Z.to_nat v).
  assert (Hn : (2 * n <= String.length s)%nat)
    by (unfold n, v, PyStr.len in *; lia).
  exists (PyStr.take n s),
         (PyStr.take (String.length s - 2 * n) (PyStr.drop n s)),
         (PyStr.drop (String.length s - n) s).
  assert (D : PyStr.drop (String.length s - n) s
              = PyStr.drop (String.length s - 2 * n) (PyStr.drop n s)).
  { rewrite <- (take_drop n s) at 2.
    assert (Ht := length_take n s ltac:(lia)).
    replace (String.length s - n)%nat
      with (String.length (PyStr.take n s)
            + (String.length s - 2 * n))%nat by lia.
    generalize (String.length s - 2 * n)%nat as k.
    generalize (PyStr.drop n s) as t.
    generalize (PyStr.take n s) as p.
    induction p as [|c r IHp]; intros t k; simpl; [reflexivity | apply IHp]. }
  repeat split.
  - rewrite D, take_drop, take_drop; reflexivity.
  - unfold PyStr.len; rewrite length_take by lia; unfold n, v; lia.
  - unfold PyStr.len; rewrite length_drop; unfold n, v in *; lia.
  - unfold PyStr.len; rewrite length_take
      by (rewrite length_drop; lia).
    unfold n, v in *; lia.
  - apply printable_cred_masked; exact H.
Qed.

(** X11: the length of a masked credential does not tell the length of the
    credential: for a credential of at least [2 * v] characters it is
    [2 * v] plus the length of the mask, which is [mask_char_count] times
    the length of [mask_char] (of [*] for an empty [mask_char]), nothing for
    a negative count.  With the default arguments every credential of two
    characters or more is shown in six characters. *)
Theorem X11_printable_cred_length (s mask_char : string)
    (visible mask_char_count : Z) :
  let v := Z.max visible 1 in
  let mask := if Py.truthy mask_char then mask_char else "*" in
  PyStr.len s >= v * 2 ->
  (exists r,
     printable_cred (O := O) (inl s) visible mask_char mask_char_count
     = inl r
     /\ PyStr.len r = 2 * v + Z.max mask_char_count 0 * PyStr.len mask)
  /\ (visible = 1 -> mask_char = "*" -> mask_char_count = 4 ->
      exists r, printable_cred_default (O := O) (inl s) = inl r
                /\ PyStr.len r = 6).
Proof.
  intros v mask H.
  assert (R : exists r,
             printable_cred (O := O) (inl s) visible mask_char
               mask_char_count = inl r
             /\ PyStr.len r
                = 2 * v + Z.max mask_char_count 0 * PyStr.len mask).
  { eexists; split; [apply printable_cred_masked; exact H|].
    unfold PyStr.len, PyStr.mul in *.
    rewrite !length_append, length_times, length_drop.
    rewrite length_take by (unfold v in *; lia).
    fold mask; unfold v in *; nia. }
  split; [exact R|].
  intros -> -> ->; destruct R as (r & Hr & Hl).
  exists r; split; [exact Hr|].
  rewrite Hl; reflexivity.
Qed.

(** X12: masking twice is masking once: [printable_cred], applied with the
    same arguments to its own result, returns that result. *)
Theorem X12_printable_cred_idempotent (cred : string + O)
    (mask_char : string) (visible mask_char_count : Z) :
  printable_cred
    (printable_cred cred visible mask_char mask_char_count)
    visible mask_char mask_char_count
  = printable_cred cred visible mask_char mask_char_count.
Proof.
  destruct cred as [s|o]; [|reflexivity].
  destruct (Z_lt_ge_dec (PyStr.len s) (Z.max visible 1 * 2)) as [Hs|Hs].
  - rewrite (printable_cred_short s mask_char visible mask_char_count Hs).
    apply printable_cred_short; exact Hs.
  - rewrite (printable_cred_masked s mask_char visible mask_char_count Hs).
    set (n := Z.to_nat (Z.max visible 1)).
    set (mask := PyStr.mul (if Py.truthy mask_char then mask_char else "*")
                   mask_char_count).
    assert (Hn : (2 * n <= String.length s)%nat)
      by (unfold n, PyStr.len in *; lia).
    assert (Lp : String.length (PyStr.take n s) = n)
      by (apply length_take; lia).
    assert (Lq : String.length (PyStr.drop (String.length s - n) s) = n)
      by (rewrite length_drop; lia).
    rewrite printable_cred_masked.
    + fold n. f_equal. f_equal.
      * rewrite <- Lp at 1; apply take_app.
      * f_equal.
        rewrite <- append_assoc.
        replace (String.length
                   ((PyStr.take n s ++ mask)
                    ++ PyStr.drop (String.length s - n) s)%string - n)%nat
          with (String.length (PyStr.take n s ++ mask)%string).
        -- apply drop_app.
        -- rewrite !length_append, Lq; lia.
    + unfold PyStr.len; rewrite !length_append, Lp, Lq.
      unfold n; lia.
Qed.

End PrintableCred.

Lemma X10_printable_cred_reveals_both_ends_witness :
  (exists first middle last,
     "hunter2" = (first ++ middle ++ last)%string
     /\ PyStr.len first = 1
     /\ PyStr.len last = 1
     /\ PyStr.len middle = 5
     /\ printable_cred (O := unit) (inl "hunter2") 1 "*" 4
        = inl (first ++ "****" ++ last)%string)
  /\ printable_cred (O := unit) (inl "x") 1 "*" 4 = inl "x".
Proof.
  destruct (X10_printable_cred_reveals_both_ends unit "hunter2" "*" 1 4 tt)
    as (Hlong & _ & _).
  destruct (X10_printable_cred_reveals_both_ends unit "x" "*" 1 4 tt)
    as (_ & Hshort & _).
  split; [apply Hlong | apply Hshort]; vm_compute; congruence.
Defined.

Lemma X11_printable_cred_length_witness :
  exists r, printable_cred_default (O := unit) (inl "a-long-credential")
            = inl r
            /\ PyStr.len r = 6.
Proof.
  refine (proj2 (X11_printable_cred_length unit "a-long-credential" "*" 1 4
                   _) eq_refl eq_refl eq_refl).
  vm_compute; congruence.
Defined.

(** * [standardize_asn] *)

Section Asn.
Local Open Scope string_scope.
Local Arguments PyStr.is_digit : simpl never.

Lemma append_nil_r (s : string) : s ++ EmptyString = s.
Proof. induction s as [|c r IH]; simpl; [reflexivity | rewrite IH; auto]. Qed.

Lemma findall_no_digits (s : string) :
  PyStr.no_digits s = true -> PyStr.findall_digits s = [].
Proof.
  induction s as [|c r IH]; simpl; [reflexivity|].
  destruct (PyStr.is_digit c); simpl; [discriminate | exact IH].
Qed.

Lemma findall_skip (pre s : string) :
  PyStr.no_digits pre = true ->
  PyStr.findall_digits (pre ++ s) = PyStr.findall_digits s.
Proof.
  induction pre as [|c r IH]; simpl; [reflexivity|].
  destruct (PyStr.is_digit c); simpl; [discriminate | exact IH].
Qed.

Lemma findall_one_run (d suf : string) :
  d <> EmptyString ->
  PyStr.all_digits d = true ->
  PyStr.no_digits suf = true ->
  PyStr.findall_digits (d ++ suf) = [d].
Proof.
  induction d as [|c r IH]; [congruence|].
  intros _ D S; simpl in D.
  apply andb_prop in D; destruct D as [Dc Dr].
  change (String c r ++ suf) with (String c (r ++ suf)).
  cbn [PyStr.findall_digits]; rewrite Dc.
  destruct r as [|c2 r2].
  - simpl.
    destruct suf as [|x t]; [reflexivity|].
    simpl in S; apply andb_prop in S; destruct S as [Sx St].
    destruct (PyStr.is_digit x) eqn:Q; [simpl in Sx; discriminate|].
    rewrite (findall_no_digits (String x t)); [reflexivity|].
    simpl; rewrite Q; exact St.
  - change (String c2 r2 ++ suf) with (String c2 (r2 ++ suf)).
    assert (D2 : PyStr.is_digit c2 = true)
      by (simpl in Dr; apply andb_prop in Dr; tauto).
    cbv iota; rewrite D2.
    change (String c2 (r2 ++ suf)) with (String c2 r2 ++ suf).
    rewrite IH; auto; discriminate.
Qed.

(** Every run found is a non-empty string of digits. *)
Lemma findall_runs (s : string) :
  Forall (fun d => d <> EmptyString /\ PyStr.all_digits d = true)
    (PyStr.findall_digits s).
Proof.
  induction s as [|c r IH]; cbn [PyStr.findall_digits]; [constructor|].
  destruct (PyStr.is_digit c) eqn:Dc; [|exact IH].
  destruct r as [|c2 r2].
  - repeat constructor; [discriminate | simpl; rewrite Dc; reflexivity].
  - destruct (PyStr.is_digit c2) eqn:D2.
    + destruct (PyStr.findall_digits (String c2 r2)) as [|run runs].
      * repeat constructor; [discriminate | simpl; rewrite Dc; reflexivity].
      * inversion IH as [|? ? [_ Hr] Hrs]; subst.
        constructor; [|exact Hrs].
        split; [discriminate | simpl; rewrite Dc, Hr; reflexivity].
    + constructor; [|exact IH].
      split; [discriminate | simpl; rewrite Dc; reflexivity].
Qed.

Lemma standardize_asn_one_run (before digits after : string) :
  PyStr.no_digits before = true ->
  digits <> EmptyString ->
  PyStr.all_digits digits = true ->
  PyStr.no_digits after = true ->
  standardize_asn (before ++ digits ++ after) = "ASN" ++ digits.
Proof.
  intros B N D A; unfold standardize_asn.
  rewrite (findall_skip before _ B), (findall_one_run digits after N D A).
  reflexivity.
Qed.

(** X13: when the digits of [asn] form one run, [standardize_asn] returns
    [ASN] followed by that run, leading zeros kept; whatever stands before
    and after the digits is dropped. *)
Theorem X13_standardize_asn_single_number (before digits after : string) :
  PyStr.no_digits before = true ->
  digits <> EmptyString ->
  PyStr.all_digits digits = true ->
  PyStr.no_digits after = true ->
  standardize_asn (before ++ digits ++ after) = "ASN" ++ digits
  /\ PyStr.findall_digits (before ++ digits ++ after) = [digits].
Proof.
  intros B N D A; split; [apply standardize_asn_one_run; auto|].
  rewrite (findall_skip before _ B); apply findall_one_run; auto.
Qed.

(** X14: the result of [standardize_asn] is [ASN] followed by a non-empty
    run of digits, or the argument itself, which is so when it has no digit
    or digits in several runs; and standardizing a result changes
    nothing. *)
Theorem X14_standardize_asn_idempotent (asn : string) :
  ((exists digits,
      digits <> EmptyString /\ PyStr.all_digits digits = true
      /\ PyStr.findall_digits asn = [digits]
      /\ standardize_asn asn = "ASN" ++ digits)
   \/ (length (PyStr.findall_digits asn) <> 1%nat
       /\ standardize_asn asn = asn))
  /\ standardize_asn (standardize_asn asn) = standardize_asn asn.
Proof.
  unfold standardize_asn at 1 2 4 5.
  pose proof (findall_runs asn) as R.
  destruct (PyStr.findall_digits asn) as [|d [|d2 rest]] eqn:F.
  - split; [right; split; [discriminate | reflexivity]|].
    unfold standardize_asn; rewrite F; reflexivity.
  - inversion R as [|? ? [N D] _]; subst.
    split; [left; exists d; auto|].
    rewrite <- (append_nil_r d) at 1.
    apply (standardize_asn_one_run "ASN" d EmptyString); auto.
  - split; [right; split; [discriminate | reflexivity]|].
    unfold standardize_asn; rewrite F; reflexivity.
Qed.

End Asn.

Lemma X13_standardize_asn_single_number_witness :
  standardize_asn "AS 007 (private)" = "ASN007".
Proof.
  exact (proj1 (X13_standardize_asn_single_number "AS " "007" " (private)"
                  eq_refl ltac:(discriminate) eq_refl eq_refl)).
Defined.

(** * [is_ip] and [is_cidr] *)

(** X15: no string is both an IP address and a CIDR block: when [is_ip]
    returns [True], [is_cidr] returns [False]; when [is_cidr] returns
    [True], [is_ip] returns [False], [ip_address] has refused the string
    with a [ValueError] and [ip_interface] has accepted it.  Neither method
    lets a [ValueError] out, and [is_cidr] lets no [Exception] of
    [ip_interface] out. *)
Theorem X15_is_ip_and_is_cidr_exclude_each_other {L : IpAddress}
    (s : string) :
  (is_ip s = Done true -> is_cidr s = Done false)
  /\ (is_cidr s = Done true ->
      is_ip s = Done false
      /\ ip_address s = Raised ValueError
      /\ exists i, ip_interface s = Done i)
  /\ is_ip s <> Raised ValueError
  /\ is_cidr s <> Raised ValueError
  /\ (forall x,
        is_cidr s = Raised x ->
        ip_address s = Raised x
        \/ (ip_interface s = Raised x /\ is_exception x = false)).
Proof.
  unfold is_ip, is_cidr.
  destruct (ip_address s) as [a|[| |]];
    destruct (ip_interface s) as [i|[| |]]; simpl;
    repeat split; try discriminate; try reflexivity; eauto;
    intros x H; injection H as <-; auto.
Qed.

(** [10.0.0.0/8] is a CIDR block and no IP address; [10.0.0.8] is an IP
    address and no CIDR block. *)
Lemma X15_is_ip_and_is_cidr_exclude_each_other_witness :
  is_ip (L := IPv4.lib) "10.0.0.0/8" = Done false
  /\ is_cidr (L := IPv4.lib) "10.0.0.8" = Done false.
Proof.
  split.
  - exact (proj1 (proj1 (proj2 (X15_is_ip_and_is_cidr_exclude_each_other
                                  (L := IPv4.lib) "10.0.0.0/8")) eq_refl)).
  - exact (proj1 (X15_is_ip_and_is_cidr_exclude_each_other
                    (L := IPv4.lib) "10.0.0.8") eq_refl).
Defined.

(** * The needle is found after the start trigger *)

Lemma gate_after_armed_by {E : ReEngine} (needle : pattern)
    (ts te : option pattern) (guard : string -> bool) (pre : list string) :
  gate_after needle ts te guard false pre = Some true ->
  exists before line after,
    pre = before ++ line :: after
    /\ guard line = true
    /\ supplied_and_matches ts line = Return true.
Proof.
  induction pre as [|l r IH]; simpl; [discriminate|].
  destruct (step needle ts te guard false l) as [[m| |]|e] eqn:S;
    try discriminate.
  destruct m.
  - intros _; exists [], l, r; split; [reflexivity|].
    apply step_inv in S; simpl in S.
    destruct S as [[_ H]|[(Hg & Hs & _)|(_ & _ & _ & _ & H)]];
      try discriminate; auto.
  - intros G; destruct (IH G) as (b & x & a & -> & Hg & Hs).
    exists (l :: b), x, a; auto.
Qed.

(** X16: with a start trigger that is neither [None] nor the empty string,
    a line number is returned only after the trigger: some line before the
    returned one is not blank and matches [trigger_start]; and the text
    [find_line_in_code] returns comes after a line of the unparsed code
    that does not start with a quote and matches [trigger_start]. *)
Theorem X16_needle_is_found_after_the_start_trigger
    {E : ReEngine} {P : PyParser}
    (needle : pattern) (trigger_start trigger_stop : option pattern)
    (text : string) :
  initial_gate trigger_start = false ->
  (forall n,
     Util.find_line_number needle text trigger_start trigger_stop
     = Return (Some n) ->
     exists before line after,
       lines_of text = before ++ line :: after
       /\ Z.of_nat (length before) + 1 < n
       /\ nonblank line = true
       /\ supplied_and_matches trigger_start line = Return true)
  /\ (forall found,
        Util.find_line_in_code needle text trigger_start trigger_stop
        = Return (Some found) ->
        exists tree before line between returned after,
          ast_parse text = Return tree
          /\ lines_of (unparse tree)
             = before ++ line :: between ++ returned :: after
          /\ unquoted line = true
          /\ supplied_and_matches trigger_start line = Return true
          /\ found = Py.strip returned).
Proof.
  intros I; split.
  - intros n H.
    rewrite find_line_number_scan, I in H.
    apply scan_Some_inv in H.
    destruct H as (pre & l & post & m' & L & G & F & ->).
    apply step_inv in F; simpl in F; destruct F as (_ & -> & _).
    destruct (gate_after_armed_by _ _ _ _ _ G) as (b & x & a & -> & Hg & Hs).
    exists b, x, (a ++ l :: post).
    rewrite L, <- app_assoc; repeat split; auto.
    rewrite length_app; cbn [length]; lia.
  - intros found H.
    rewrite find_line_in_code_scan, I in H.
    destruct (ast_parse text) as [tree|e]; simpl in H; [|discriminate].
    apply scan_Some_inv in H.
    destruct H as (pre & l & post & m' & L & G & F & ->).
    apply step_inv in F; simpl in F; destruct F as (_ & -> & _).
    destruct (gate_after_armed_by _ _ _ _ _ G) as (b & x & a & -> & Hg & Hs).
    exists tree, b, x, a, l, post.
    rewrite L, <- app_assoc; repeat split; auto.
Qed.

Lemma X16_needle_is_found_after_the_start_trigger_witness :
  exists before line after,
    lines_of ("bar" ++ LF ++ "foo" ++ LF ++ "bar")%string
    = before ++ line :: after
    /\ Z.of_nat (length before) + 1 < 3
    /\ nonblank line = true
    /\ supplied_and_matches (E := MiniRe.engine) (Some (Str "foo")) line
       = Return true.
Proof.
  exact (proj1 (X16_needle_is_found_after_the_start_trigger
                  (E := MiniRe.engine) (P := MicroPy.parser)
                  (Str "bar") (Some (Str "foo")) None
                  ("bar" ++ LF ++ "foo" ++ LF ++ "bar")%string eq_refl)
           3 eq_refl).
Defined.
